(** * SMTP app: token verification pipeline and webhook reconciliation hook

    A shallow embedding of
    - [apps/smtp/src/lib/apl/apl-interfaces.ts] (the [AuthData] model and the
      [protectedClientProcedure] middleware chain with
      [verifyJWTWithCustomHeaders]),
    - [apps/smtp/src/modules/trpc/protected-client-procedure-with-services.ts]
      (the [protectedWithConfigurationServices] middleware),
    - [apps/smtp/src/pages/api/register.ts] (the [allowedSaleorUrls] validator).

    Asynchronous functions are computations of a state-and-exception monad
    [M]: a [Promise] that resolves is [Return], one that rejects (or a
    synchronous [throw]) is [Throw].  The collaborators that live outside
    these files (the auth-data store, [jose], [fetch], [URL], [RegExp], the
    webhook synchroniser) are the fields of an environment record [Env]; every
    call to one of them that matters for ordering is written to a trace.
    [logger.debug] and [console.log] lines have no effect on results and are
    left out. *)

From stdpp Require Import base strings gmap list.

Open Scope string_scope.
Open Scope list_scope.

(** ** JavaScript values used by the code *)

(** The error objects the code throws or receives.  [message] is the
    [.message] property read by the [catch] blocks. *)
Inductive JsError : Type :=
| Error (msg : string)
| TypeError (msg : string)
| SyntaxError (msg : string)
| TRPCError (code : string) (msg : string)
| ProtectedHandlerError (msg : string) (errorType : string).

Definition message (e : JsError) : string :=
  match e with
  | Error m | TypeError m | SyntaxError m => m
  | TRPCError _ m => m
  | ProtectedHandlerError m _ => m
  end.

(** Truthiness of an optional string ([undefined] and the empty string are
    falsy) and of an optional boolean. *)
Definition truthy_str (v : option string) : bool :=
  match v with
  | Some s => negb (String.eqb s "")
  | None => false
  end.

Definition truthy_bool (v : option bool) : bool :=
  match v with
  | Some b => b
  | None => false
  end.

(** [v || ""] on an optional string. *)
Definition or_empty (v : option string) : string :=
  if truthy_str v then default "" v else "".

(** [String.prototype.includes]. *)
Fixpoint includes (needle hay : string) : bool :=
  String.prefix needle hay ||
  match hay with
  | EmptyString => false
  | String _ rest => includes needle rest
  end.

(** ** Domain model ([apl-interfaces.ts], lines 2-9) *)

Record AuthData : Type := mkAuthData {
  ad_domain : option string;
  ad_token : string;
  ad_saleorApiUrl : string;
  ad_appId : string;
  ad_dashboardUrl : string;
  ad_jwks : option string
}.

(** The claim set [jose.decodeJwt] returns: the [app] claim the code reads
    and the [permissions] claim a permission check would read. *)
Record JWTPayload : Type := mkJWTPayload {
  app : option string;
  permissions : list string
}.

Definition Headers : Type := list (string * string).

Record RequestInit : Type := mkRequestInit { init_headers : Headers }.

Record Response : Type := mkResponse { ok : bool; statusText : string }.

(** What the code reads of a [URL] object. *)
Record URL : Type := mkURL { href : string; origin : string }.

(** Modelled from the spec: the API client returned by
    [createInstrumentedGraphqlClient] (its file is not among the sources).
    It is scoped to the tenant API URL, carries the stored token and the
    tenant's dashboard URL, and performs no request until it is used. *)
Record Client : Type := mkClient {
  client_saleorApiUrl : option string;
  client_token : option string;
  client_dashboardUrl : string
}.

(** Modelled from the spec: the service classes constructed in
    [protected-client-procedure-with-services.ts] (their files are not among
    the sources).  Construction only stores the arguments: "The services do
    not fetch data from the API unless they are used". *)
Record FeatureFlagService : Type := mkFeatureFlagService {
  ffs_client : option Client
}.

Record SmtpMetadataManager : Type := mkSmtpMetadataManager {
  smm_settingsClient : option Client;
  smm_settingsAppId : option string;
  smm_saleorApiUrl : option string
}.

Record SmtpConfigurationService : Type := mkSmtpConfigurationService {
  scs_metadataManager : SmtpMetadataManager;
  scs_featureFlagService : FeatureFlagService
}.

Record WebhookManagementService : Type := mkWebhookManagementService {
  wms_appBaseUrl : option string;
  wms_client : option Client;
  wms_featureFlagService : FeatureFlagService;
  wms_appId : option string
}.

Record SyncArgs : Type := mkSyncArgs {
  sync_smtpConfigurationService : SmtpConfigurationService;
  sync_webhookManagementService : WebhookManagementService
}.

(** The tRPC request context.  Every property may be absent; the same record
    is the [ctx] object a middleware hands to [next]. *)
Record Ctx : Type := mkCtx {
  token : option string;
  saleorApiUrl : option string;
  appId : option string;
  ssr : option bool;
  baseUrl : option string;
  appToken : option string;
  dashboardUrl : option string;
  apiClient : option Client;
  smtpConfigurationService : option SmtpConfigurationService;
  featureFlagService : option FeatureFlagService
}.

Definition emptyCtx : Ctx :=
  mkCtx None None None None None None None None None None.

(** tRPC hands the next middleware [{...ctx, ...patch}]. *)
Definition mergeCtx (c p : Ctx) : Ctx :=
  let pick {A} (f : Ctx -> option A) : option A :=
    match f p with Some v => Some v | None => f c end in
  mkCtx (pick token) (pick saleorApiUrl) (pick appId) (pick ssr) (pick baseUrl)
        (pick appToken) (pick dashboardUrl) (pick apiClient)
        (pick smtpConfigurationService) (pick featureFlagService).

(** The procedure's [meta] object. *)
Record Meta : Type := mkMeta {
  requiredClientPermissions : option (list string);
  updateWebhooks : option bool
}.

(** ** The monad of asynchronous, throwing computations *)

Inductive Outcome (A : Type) : Type :=
| Return (a : A)
| Throw (e : JsError).
Arguments Return {A} a.
Arguments Throw {A} e.

(** Calls to collaborators, in the order they were made. *)
Inductive Event : Type :=
| EvAplGet (key : string)
| EvJwtVerify (tok : string) (jwksUrl : string)
| EvFetch (input : string) (init : RequestInit)
| EvSyncWebhookStatus (args : SyncArgs).

Record State (World : Type) : Type := mkState {
  world : World;
  trace : list Event
}.
Arguments mkState {World} world trace.
Arguments world {World} s.
Arguments trace {World} s.

Definition M (World : Type) (A : Type) : Type :=
  State World -> Outcome A * State World.

#[export] Instance M_ret {World} : MRet (M World) :=
  fun A a st => (Return a, st).

#[export] Instance M_bind {World} : MBind (M World) :=
  fun A B f c st =>
    match c st with
    | (Return a, st') => f a st'
    | (Throw e, st') => (Throw e, st')
    end.

Definition throw {World A} (e : JsError) : M World A :=
  fun st => (Throw e, st).

(** [try { c } catch (e) { h e }]. *)
Definition try_catch {World A} (c : M World A) (h : JsError -> M World A)
  : M World A :=
  fun st =>
    match c st with
    | (Return a, st') => (Return a, st')
    | (Throw e, st') => h e st'
    end.

(** A call to a collaborator: the event is recorded, then the collaborator
    acts on the world. *)
Definition call {World A} (ev : Event)
    (f : World -> Outcome A * World) : M World A :=
  fun st =>
    let '(r, w) := f (world st) in
    (r, mkState w (trace st ++ [ev])).

(** ** Collaborators *)

Record Env (World : Type) : Type := mkEnv {
  (** [saleorApp.apl.get] *)
  apl_get : string -> World -> Outcome (option AuthData) * World;
  (** [new URL(s)]; [None] is the [TypeError] of an invalid URL. *)
  URL_parse : string -> option URL;
  (** [jose.decodeJwt]: decoding reads the token only. *)
  jose_decodeJwt : string -> JsError + JWTPayload;
  (** [jose.jwtVerify(token, JWKS)], given the key-set URL and headers. *)
  jose_jwtVerify : string -> URL -> Headers -> World -> Outcome unit * World;
  (** the global [fetch] *)
  fetch : string -> RequestInit -> World -> Outcome Response * World;
  (** [syncWebhookStatus] of [modules/webhook-management] *)
  syncWebhookStatus : SyncArgs -> World -> Outcome unit * World;
  (** [new RegExp(p).test(s)]; [None] is the [SyntaxError] of an invalid
      pattern. *)
  RegExp_test : string -> string -> option bool;
  (** the constant of [@saleor/apps-shared] *)
  REQUIRED_SALEOR_PERMISSIONS : list string
}.
Arguments apl_get {World} e.
Arguments URL_parse {World} e.
Arguments jose_decodeJwt {World} e.
Arguments jose_jwtVerify {World} e.
Arguments fetch {World} e.
Arguments syncWebhookStatus {World} e.
Arguments RegExp_test {World} e.
Arguments REQUIRED_SALEOR_PERMISSIONS {World} e.

Definition new_URL {World} (E : Env World) (s : string) : M World URL :=
  match URL_parse E s with
  | Some u => mret u
  | None => throw (TypeError "Invalid URL")
  end.

(** ** [apl-interfaces.ts]: key set, token verification, middleware chain *)

Section ProtectedClientProcedure.
Context {World : Type} (E : Env World).

(** Lines 50-51. *)
Definition getJwksUrlFromSaleorApiUrl (saleorApiUrl : string) : M World string :=
  u ← new_URL E saleorApiUrl;
  mret (origin u +:+ "/.well-known/jwks.json").

(** Lines 56-71: the closure [fetchWithHeaders] of
    [createCustomRemoteJWKSet url headers]; [init] defaults to [{ headers }]. *)
Definition fetchWithHeaders (headers : Headers)
    (input : string) (init : option RequestInit) : M World Response :=
  let init := default (mkRequestInit headers) init in
  response ← call (EvFetch input init) (fetch E input init);
  if negb (ok response)
  then throw (Error ("Failed to fetch JWKS: " +:+ statusText response))
  else mret response.

(** The key-set resolver handed to [jose.jwtVerify]. *)
Record JWKS : Type := mkJWKS {
  jwks_url : URL;
  jwks_fetch : string -> option RequestInit -> M World Response;
  jwks_headers : Headers
}.

(** Lines 54-78. *)
Definition createCustomRemoteJWKSet (url : string) (headers : Headers)
  : M World JWKS :=
  u ← new_URL E url;
  mret (mkJWKS u (fetchWithHeaders headers) headers).

Record VerifyArgs : Type := mkVerifyArgs {
  v_saleorApiUrl : string;
  v_token : string;
  v_appId : string;
  v_requiredPermissions : list string;
  v_dashboardUrl : string
}.

Definition ERROR_MESSAGE : string := "JWT verification failed:".

Definition decodeError (error : JsError) : JsError :=
  Error (ERROR_MESSAGE +:+ " Could not decode token: " +:+ message error).

Definition signatureError (error : JsError) : JsError :=
  Error (ERROR_MESSAGE +:+ " Signature verification failed: " +:+ message error).

Definition appMismatchError : JsError :=
  Error (ERROR_MESSAGE +:+ " Token's app property does not match app ID.").

(** [tokenClaims.app !== appId] *)
Definition app_differs (tokenClaims : JWTPayload) (appId : string) : bool :=
  negb (bool_decide (app tokenClaims = Some appId)).

(** The headers object of lines 94-97. *)
Definition jwksHeaders (a : VerifyArgs) : Headers :=
  [("Origin", "https://" +:+ v_dashboardUrl a);
   ("Referer", "https://" +:+ v_dashboardUrl a)].

(** The state left by the call of [jose.jwtVerify] on the token of [a] with
    key set [j], when the collaborator leaves the world [w]. *)
Definition afterVerify (a : VerifyArgs) (j : URL) (st : State World) (w : World)
  : State World :=
  mkState w (trace st ++ [EvJwtVerify (v_token a) (href j)]).

(** Lines 81-123. *)
Definition verifyJWTWithCustomHeaders (a : VerifyArgs) : M World JWTPayload :=
  jwksUrl ← getJwksUrlFromSaleorApiUrl (v_saleorApiUrl a);
  JWKS ← createCustomRemoteJWKSet jwksUrl (jwksHeaders a);
  tokenClaims ←
    try_catch
      (match jose_decodeJwt E (v_token a) with
       | inr claims => mret claims
       | inl error => throw error
       end)
      (fun error => throw (decodeError error));
  try_catch
    (call (EvJwtVerify (v_token a) (href (jwks_url JWKS)))
          (jose_jwtVerify E (v_token a) (jwks_url JWKS) (jwks_headers JWKS)))
    (fun error => throw (signatureError error));;
  if app_differs tokenClaims (v_appId a)
  then throw appMismatchError
  else mret tokenClaims.

(** [undefined.dashboardUrl] *)
Definition undefinedDashboardUrl : JsError :=
  TypeError "Cannot read properties of undefined (reading 'dashboardUrl')".

(** [(await saleorApp.apl.get(ctx.appId || "")).dashboardUrl] *)
Definition storedDashboardUrl (ctx : Ctx) : M World string :=
  authData ← call (EvAplGet (or_empty (appId ctx)))
                  (apl_get E (or_empty (appId ctx)));
  match authData with
  | Some authData => mret (ad_dashboardUrl authData)
  | None => throw undefinedDashboardUrl
  end.

(** Lines 125-157. *)
Definition attachAppToken {R} (ctx : Ctx) (next : Ctx -> M World R) : M World R :=
  if negb (truthy_str (saleorApiUrl ctx)) then
    throw (TRPCError "BAD_REQUEST" "Missing saleorApiUrl in request")
  else
    authData ← call (EvAplGet (or_empty (appId ctx)))
                    (apl_get E (or_empty (appId ctx)));
    match authData with
    | None => throw (TRPCError "UNAUTHORIZED" "Missing auth data")
    | Some authData =>
        next (mkCtx None (Some (ad_saleorApiUrl authData))
                    (Some (ad_appId authData)) None None
                    (Some (ad_token authData)) None None None None)
    end.

Definition missingToken : JsError :=
  TRPCError "INTERNAL_SERVER_ERROR"
    "Missing token in request. This middleware can be used only in frontend".

Definition missingAppId : JsError :=
  TRPCError "INTERNAL_SERVER_ERROR"
    "Missing appId in request. This middleware can be used after auth is attached".

Definition missingSaleorApiUrl : JsError :=
  TRPCError "INTERNAL_SERVER_ERROR"
    "Missing saleorApiUrl in request. This middleware can be used after auth is attached".

Definition jwtVerificationFailed : JsError :=
  ProtectedHandlerError "JWT verification failed: " "JWT_VERIFICATION_FAILED".

(** The argument object of the call at lines 194-203;
    [requiredPermissions] is
    [[...REQUIRED_SALEOR_PERMISSIONS, ...(meta?.requiredClientPermissions || [])]]. *)
Definition requiredPermissionsOf (meta : option Meta) : list string :=
  REQUIRED_SALEOR_PERMISSIONS E ++
  default [] (meta ≫= requiredClientPermissions).

Definition verifyArgsOf (ctx : Ctx) (meta : option Meta)
    (dashboardUrl : string) : VerifyArgs :=
  mkVerifyArgs (default "" (saleorApiUrl ctx)) (default "" (token ctx))
               (default "" (appId ctx)) (requiredPermissionsOf meta)
               dashboardUrl.

(** The [try] block of lines 190-203. *)
Definition verifyClientToken (ctx : Ctx) (meta : option Meta)
  : M World JWTPayload :=
  dashboardUrl ← storedDashboardUrl ctx;
  verifyJWTWithCustomHeaders (verifyArgsOf ctx meta dashboardUrl).

(** A context that passes the three presence checks of lines 167-187. *)
Definition complete (ctx : Ctx) : Prop :=
  truthy_str (token ctx) = true
  /\ truthy_str (appId ctx) = true
  /\ truthy_str (saleorApiUrl ctx) = true.

(** Lines 159-216.  The object handed to [next] is
    [{ ...ctx, saleorApiUrl: ctx.saleorApiUrl }]. *)
Definition validateClientToken {R} (ctx : Ctx) (meta : option Meta)
    (next : Ctx -> M World R) : M World R :=
  if negb (truthy_str (token ctx)) then throw missingToken
  else if negb (truthy_str (appId ctx)) then throw missingAppId
  else if negb (truthy_str (saleorApiUrl ctx)) then throw missingSaleorApiUrl
  else
    (if negb (truthy_bool (ssr ctx)) then
       try_catch (verifyClientToken ctx meta;; mret tt)
                 (fun e => throw jwtVerificationFailed)
     else mret tt);;
    next (mkCtx (token ctx) (saleorApiUrl ctx) (appId ctx) (ssr ctx)
                (baseUrl ctx) (appToken ctx) (dashboardUrl ctx)
                (apiClient ctx) (smtpConfigurationService ctx)
                (featureFlagService ctx)).

(** Modelled from the spec: [createInstrumentedGraphqlClient] (its file,
    [lib/create-instrumented-graphql-client.ts], is not among the sources).
    It builds a client bound to the tenant API URL with the stored token and
    the tenant's dashboard URL; construction does not fail, failures surface
    on first use of the client. *)
Definition createInstrumentedGraphqlClient
    (saleorApiUrl token : option string) (dashboardUrl : string) : Client :=
  mkClient saleorApiUrl token dashboardUrl.

(** Lines 229-245: the third middleware of [protectedClientProcedure]. *)
Definition attachApiClient {R} (ctx : Ctx) (next : Ctx -> M World R) : M World R :=
  dashboardUrl' ← storedDashboardUrl ctx;
  let client :=
    createInstrumentedGraphqlClient (saleorApiUrl ctx) (appToken ctx)
                                    dashboardUrl' in
  next (mkCtx None (saleorApiUrl ctx) (appId ctx) None None (appToken ctx)
              (dashboardUrl ctx) (Some client) None None).

(** The state left by a lookup of [ctx.appId || ""] in the auth-data store,
    when the store leaves the world [w]. *)
Definition afterLookup (ctx : Ctx) (st : State World) (w : World) : State World :=
  mkState w (trace st ++ [EvAplGet (or_empty (appId ctx))]).

(** The first two middlewares of the chain, ending with the context that
    reaches the third. *)
Definition identityAndToken (ctx : Ctx) (meta : option Meta) : M World Ctx :=
  attachAppToken ctx (fun p1 =>
    let c1 := mergeCtx ctx p1 in
    validateClientToken c1 meta (fun p2 => mret (mergeCtx c1 p2))).

(** The object handed to [next] at lines 236-244, for the looked-up
    [dashboardUrl]. *)
Definition clientCtx (ctx : Ctx) (storedUrl : string) : Ctx :=
  mkCtx None (saleorApiUrl ctx) (appId ctx) None None (appToken ctx)
        (dashboardUrl ctx)
        (Some (createInstrumentedGraphqlClient (saleorApiUrl ctx)
                 (appToken ctx) storedUrl))
        None None.

(** Lines 226-245: [procedure.use(attachAppToken).use(validateClientToken).use(...)].
    Each [next] runs the following middleware on the merged context. *)
Definition protectedClientProcedure {R} (ctx : Ctx) (meta : option Meta)
    (resolver : Ctx -> M World R) : M World R :=
  attachAppToken ctx (fun p1 =>
    let c1 := mergeCtx ctx p1 in
    validateClientToken c1 meta (fun p2 =>
      let c2 := mergeCtx c1 p2 in
      attachApiClient c2 (fun p3 => resolver (mergeCtx c2 p3)))).

(** ** [protected-client-procedure-with-services.ts] *)

(** Lines 26-28. *)
Definition newFeatureFlagService (ctx : Ctx) : FeatureFlagService :=
  mkFeatureFlagService (apiClient ctx).

(** Lines 30-36. *)
Definition newSmtpConfigurationService (ctx : Ctx) : SmtpConfigurationService :=
  mkSmtpConfigurationService
    (mkSmtpMetadataManager (apiClient ctx) (appId ctx) (saleorApiUrl ctx))
    (newFeatureFlagService ctx).

(** Lines 48-53. *)
Definition newWebhookManagementService (ctx : Ctx) : WebhookManagementService :=
  mkWebhookManagementService (baseUrl ctx) (apiClient ctx)
                             (newFeatureFlagService ctx) (appId ctx).

(** The object handed to [next] at lines 38-43. *)
Definition servicesCtx (ctx : Ctx) : Ctx :=
  mkCtx None None None None None None None None
        (Some (newSmtpConfigurationService ctx))
        (Some (newFeatureFlagService ctx)).

(** The argument of [syncWebhookStatus] at lines 55-58. *)
Definition syncArgsOf (ctx : Ctx) : SyncArgs :=
  mkSyncArgs (newSmtpConfigurationService ctx) (newWebhookManagementService ctx).

(** Lines 19-63. *)
Definition protectedWithConfigurationServices {R} (ctx : Ctx)
    (meta : option Meta) (next : Ctx -> M World R) : M World R :=
  result ← next (servicesCtx ctx);
  (if truthy_bool (meta ≫= updateWebhooks) then
     call (EvSyncWebhookStatus (syncArgsOf ctx))
          (syncWebhookStatus E (syncArgsOf ctx))
   else mret tt);;
  mret result.

(** The number of [syncWebhookStatus] calls in a trace. *)
Definition isSync (ev : Event) : bool :=
  match ev with
  | EvSyncWebhookStatus _ => true
  | _ => false
  end.

Definition syncCalls (t : list Event) : nat := length (List.filter isSync t).

(** ** [pages/api/register.ts], lines 12-32 *)

(** The validator in [allowedSaleorUrls]; [allowedUrlsPattern] is
    [process.env.ALLOWED_DOMAIN_PATTERN]. *)
Definition allowedSaleorUrls (allowedUrlsPattern : option string)
    (url : string) : Outcome bool :=
  if truthy_str allowedUrlsPattern then
    match RegExp_test E (default "" allowedUrlsPattern) url with
    | Some b => Return b
    | None => Throw (SyntaxError "Invalid regular expression")
    end
  else Return true.

End ProtectedClientProcedure.

(** ** Webhook manifest differ *)

Module WebhookDiffer.

Inductive Delivery : Type := Sync | Async.

#[export] Instance Delivery_eq_dec : EqDecision Delivery.
Proof. solve_decision. Defined.

(** Desired state. *)
Record WebhookManifestEntry : Type := mkEntry {
  name : string;
  targetUrl : string;
  eventTypes : list string;
  isActive : bool;
  syncOrAsync : Delivery
}.

(** Actual state: the same shape plus the remote identifier. *)
Record RemoteWebhook : Type := mkRemote {
  remoteId : string;
  rw_name : string;
  rw_targetUrl : string;
  rw_eventTypes : list string;
  rw_isActive : bool;
  rw_syncOrAsync : Delivery
}.

Record Diff : Type := mkDiff {
  toCreate : list WebhookManifestEntry;
  toUpdate : list (string * WebhookManifestEntry);
  toDelete : list RemoteWebhook
}.

(** The matching key is [(name, targetUrl)]. *)
Definition same_key (d : WebhookManifestEntry) (a : RemoteWebhook) : bool :=
  bool_decide (name d = rw_name a) && bool_decide (targetUrl d = rw_targetUrl a).

Definition same_settings (d : WebhookManifestEntry) (a : RemoteWebhook) : bool :=
  bool_decide (eventTypes d = rw_eventTypes a)
  && bool_decide (isActive d = rw_isActive a)
  && bool_decide (syncOrAsync d = rw_syncOrAsync a).

(** Modelled from the spec: the webhook manifest differ (the
    [modules/webhook-management] files are not among the sources).
    An entry present only in [desired] is created; one present in both with
    different [eventTypes], [isActive] or [syncOrAsync] is updated by full
    replacement of the remote webhook; a webhook present only in [actual] is
    deleted unless its name is outside the owned names. *)
Definition diff (owned : string -> bool)
    (desired : list WebhookManifestEntry) (actual : list RemoteWebhook) : Diff :=
  mkDiff
    (List.filter (fun d => negb (existsb (same_key d) actual)) desired)
    (flat_map (fun d =>
       List.map (fun a => (remoteId a, d))
         (List.filter (fun a => same_key d a && negb (same_settings d a)) actual))
       desired)
    (List.filter (fun a =>
       negb (existsb (fun d => same_key d a) desired) && owned (rw_name a))
       actual).

(** Ownership by a set of recognised names. *)
Definition owned_by_set (names : gset string) (n : string) : bool :=
  bool_decide (n ∈ names).

End WebhookDiffer.

(** ** A concrete deployment, used to run the code on explicit requests *)

Module Demo.

(** The auth-data store is a remote key-value store: a map from keys to
    records, and the number of lookups it still serves before it becomes
    unreachable. *)
Record World : Type := mkWorld {
  store : gmap string AuthData;
  served : nat
}.

Definition tenant : AuthData :=
  mkAuthData None "app-token" "https://tenant.example/graphql/" "app-1"
             "dashboard.example" None.

Definition get (k : string) (w : World) : Outcome (option AuthData) * World :=
  match served w with
  | O => (Throw (Error "fetch failed"), w)
  | S n => (Return (store w !! k), mkWorld (store w) n)
  end.

Definition parse (s : string) : option URL :=
  if String.eqb s "https://tenant.example/graphql/"
  then Some (mkURL s "https://tenant.example")
  else if String.eqb s "https://tenant.example/.well-known/jwks.json"
  then Some (mkURL s "https://tenant.example")
  else None.

(** Four tokens: [jwt-staff] is signed by the tenant for [app-1] and carries
    no permission; [jwt-other] is signed by the tenant for [app-2];
    [jwt-forged] names [app-2] and is not signed by the tenant; anything else
    is not a JWT. *)
Definition decode (t : string) : JsError + JWTPayload :=
  if String.eqb t "jwt-staff" then inr (mkJWTPayload (Some "app-1") [])
  else if String.eqb t "jwt-other" then inr (mkJWTPayload (Some "app-2") ["MANAGE_APPS"])
  else if String.eqb t "jwt-forged" then inr (mkJWTPayload (Some "app-2") ["MANAGE_APPS"])
  else inl (Error "Invalid JWT").

Definition verify (t : string) (u : URL) (h : Headers) (w : World)
  : Outcome unit * World :=
  if String.eqb t "jwt-staff" || String.eqb t "jwt-other"
  then (Return tt, w)
  else (Throw (Error "signature verification failed"), w).

(** The key-set endpoint answers 403. *)
Definition fetch403 (input : string) (init : RequestInit) (w : World)
  : Outcome Response * World :=
  (Return (mkResponse false "Forbidden"), w).

Definition sync (fails : bool) (a : SyncArgs) (w : World)
  : Outcome unit * World :=
  if fails then (Throw (Error "Could not create webhook"), w)
  else (Return tt, w).

(** Patterns without metacharacters: [test] is substring search. *)
Definition regexp (p s : string) : option bool := Some (includes p s).

Definition env (syncFails : bool) : Env World :=
  mkEnv World get parse decode verify fetch403 (sync syncFails) regexp
        ["MANAGE_APPS"].

Definition installed (n : nat) : State World :=
  mkState (mkWorld {[ "app-1" := tenant ]} n) [].

Definition browserCtx (t : string) : Ctx :=
  mkCtx (Some t) (Some "https://tenant.example/graphql/") (Some "app-1")
        None (Some "https://app.example") None None None None None.

Definition serverCtx : Ctx :=
  mkCtx None (Some "https://tenant.example/graphql/") (Some "app-1")
        (Some true) (Some "https://app.example") None None None None None.

(** A resolver that answers with the context it was given. *)
Definition echo : Ctx -> M World Ctx := fun c => mret c.

Definition args (t : string) (required : list string) : VerifyArgs :=
  mkVerifyArgs "https://tenant.example/graphql/" t "app-1" required
               "dashboard.example".

Definition jwksEndpoint : string := "https://tenant.example/.well-known/jwks.json".

Definition mutating : option Meta := Some (mkMeta None (Some true)).
Definition reading : option Meta := Some (mkMeta None None).

(** The names this app registers, and two remote webhooks: one of the app's
    own and one registered by somebody else. *)
Definition ownedNames : gset string := {[ "order-created"; "invoice-sent" ]}.

Definition orderCreated : WebhookDiffer.RemoteWebhook :=
  WebhookDiffer.mkRemote "42" "order-created" "https://app.example/wh"
    ["ORDER_CREATED"] true WebhookDiffer.Async.

Definition crmSync : WebhookDiffer.RemoteWebhook :=
  WebhookDiffer.mkRemote "77" "crm-sync" "https://crm.example/hook"
    ["ORDER_CREATED"] true WebhookDiffer.Async.

End Demo.

(** ** The procedure with configuration services *)

Section ConfigurationProcedure.
Context {World : Type} (E : Env World).

(** [protectedClientProcedure.use(...)] of
    [protected-client-procedure-with-services.ts], line 19: the services
    middleware runs as the resolver of the client chain, and its [next] runs
    the handler on the merged context. *)
Definition configurationProcedure {R} (ctx : Ctx) (meta : option Meta)
    (resolver : Ctx -> M World R) : M World R :=
  protectedClientProcedure E ctx meta (fun c =>
    protectedWithConfigurationServices E c meta (fun p =>
      resolver (mergeCtx c p))).

End ConfigurationProcedure.

(** The object [attachAppToken] hands to [next] (lines 150-156) for the
    stored record [authData]. *)
Definition identityCtx (authData : AuthData) : Ctx :=
  mkCtx None (Some (ad_saleorApiUrl authData)) (Some (ad_appId authData))
        None None (Some (ad_token authData)) None None None None.

(** The two [TRPCError]s of [attachAppToken]. *)
Definition missingRequestUrl : JsError :=
  TRPCError "BAD_REQUEST" "Missing saleorApiUrl in request".

Definition missingAuthData : JsError :=
  TRPCError "UNAUTHORIZED" "Missing auth data".

(** ** The procedure caller of the tRPC runtime

    [protectedClientProcedure] and [configurationProcedure] above compose the
    middleware functions directly, so an error thrown by one of them is the
    error of the composition.  The runtime that calls a procedure runs every
    middleware inside a [try] block: [next()] never rejects, it resolves to a
    result object, and a thrown error that is not a [TRPCError] becomes the
    cause of a [TRPCError] with code [INTERNAL_SERVER_ERROR]. *)

(** The [TRPCError] a failed call ends with: its code, its message and its
    cause. *)
Record TRPCFailure : Type := mkTRPCFailure {
  tf_code : string;
  tf_message : string;
  tf_cause : option JsError
}.

(** [getTRPCErrorFromUnknown]: a [TRPCError] is kept; any other error is
    wrapped, the wrapper taking the message of its cause. *)
Definition getTRPCErrorFromUnknown (cause : JsError) : TRPCFailure :=
  match cause with
  | TRPCError code msg => mkTRPCFailure code msg None
  | _ => mkTRPCFailure "INTERNAL_SERVER_ERROR" (message cause) (Some cause)
  end.

(** The result object of a middleware: [{ ok: true, data }] or
    [{ ok: false, error }].  The caller of the procedure returns [data] of
    the first and throws [error] of the second. *)
Inductive MiddlewareResult (Data : Type) : Type :=
| MOk (data : Data)
| MFailed (error : TRPCFailure).
Arguments MOk {Data} data.
Arguments MFailed {Data} error.

Section Runtime.
Context {World : Type} (E : Env World) {Data : Type}.

(** [callRecursive]: one middleware run inside [try]/[catch]. *)
Definition callRecursive (middleware : M World (MiddlewareResult Data))
  : M World (MiddlewareResult Data) :=
  try_catch middleware
            (fun cause => mret (MFailed (getTRPCErrorFromUnknown cause))).

(** The handler, wrapped as the last middleware. *)
Definition resolveMiddleware (resolver : Ctx -> M World Data) (ctx : Ctx)
  : M World (MiddlewareResult Data) :=
  data ← resolver ctx;
  mret (MOk data).

(** The three middlewares of [protectedClientProcedure] as the runtime runs
    them, followed by the middlewares [rest]. *)
Definition callProtectedChain (ctx : Ctx) (meta : option Meta)
    (rest : Ctx -> M World (MiddlewareResult Data))
  : M World (MiddlewareResult Data) :=
  callRecursive (attachAppToken E ctx (fun p1 =>
    let c1 := mergeCtx ctx p1 in
    callRecursive (validateClientToken E c1 meta (fun p2 =>
      let c2 := mergeCtx c1 p2 in
      callRecursive (attachApiClient E c2 (fun p3 =>
        rest (mergeCtx c2 p3))))))).

(** A call of a procedure built on [protectedClientProcedure]. *)
Definition callProtectedClientProcedure (ctx : Ctx) (meta : option Meta)
    (resolver : Ctx -> M World Data) : M World (MiddlewareResult Data) :=
  callProtectedChain ctx meta (fun c =>
    callRecursive (resolveMiddleware resolver c)).

(** A call of a procedure built on [protectedWithConfigurationServices]. *)
Definition callConfigurationProcedure (ctx : Ctx) (meta : option Meta)
    (resolver : Ctx -> M World Data) : M World (MiddlewareResult Data) :=
  callProtectedChain ctx meta (fun c =>
    callRecursive (protectedWithConfigurationServices E c meta (fun p4 =>
      callRecursive (resolveMiddleware resolver (mergeCtx c p4))))).

End Runtime.

(** A computation that records no call of [syncWebhookStatus]. *)
Definition quiet {World A} (c : M World A) : Prop :=
  forall st, exists l,
    trace (snd (c st)) = trace st ++ l /\ syncCalls l = 0.

(** ** [saleor-app.ts]: the choice of the auth-data store *)

Module SaleorApp.

(** The three store implementations the module can construct. *)
Inductive AplInstance : Type :=
| UpstashAPL
| FileAPL
| SaleorCloudAPL (resourceUrl token : string).

Definition restAplNotConfigured : JsError :=
  Error "Rest APL is not configured - missing env variables. Check saleor-app.ts".

Definition invalidAplConfig : JsError := Error "Invalid APL config, ".

(** Lines 7-35, as a function of [process.env].
    [process.env.APL ?? "file"] replaces only an absent variable. *)
Definition selectApl (env : gmap string string) : JsError + AplInstance :=
  let aplType := default "file" (env !! "APL") in
  if String.eqb aplType "upstash" then inr UpstashAPL
  else if String.eqb aplType "file" then inr FileAPL
  else if String.eqb aplType "saleor-cloud" then
    if negb (truthy_str (env !! "REST_APL_ENDPOINT"))
       || negb (truthy_str (env !! "REST_APL_TOKEN"))
    then inl restAplNotConfigured
    else inr (SaleorCloudAPL (default "" (env !! "REST_APL_ENDPOINT"))
                             (default "" (env !! "REST_APL_TOKEN")))
  else inl invalidAplConfig.

(** Line 40. *)
Definition REQUIRED_SALEOR_VERSION : string := ">=3.11.7 <4".

End SaleorApp.

(** ** [pages/api/register.ts]: the installation hooks *)

Module Register.

(** The [options] argument of [fetch]: a plain [headers] object and the
    other properties, which the hook does not touch.  Calls with a [Headers]
    instance (which the spread of line 45 copies nothing of) or with a [URL]
    or [Request] in place of the URL string (on which [includes] is not a
    function) are outside this model. *)
Record FetchOptions : Type := mkFetchOptions {
  fo_headers : option (gmap string string);
  fo_method : option string;
  fo_body : option string
}.

(** [{}] *)
Definition noOptions : FetchOptions := mkFetchOptions None None None.

Definition TARGET_HOST : string := "api-commerce.comercia.me".

(** [{ ...options.headers, Origin: ..., Referer: ... }] *)
Definition withDashboardHeaders (dashboardUrl : string)
    (headers : gmap string string) : gmap string string :=
  <["Referer" := "https://" +:+ dashboardUrl]>
    (<["Origin" := "https://" +:+ dashboardUrl]> headers).

(** Lines 36-53: the function [onRequestStart] assigns to [global.fetch].
    [dashboardUrl] is [request.params.dashboardUrl]; [options] defaults to
    [{}] and [options.headers] to [{}]. *)
Definition patchedFetch {A} (dashboardUrl : option string)
    (originalFetch : string -> option FetchOptions -> A)
    (url : string) (options : option FetchOptions) : A :=
  let options := default noOptions options in
  let headers := default ∅ (fo_headers options) in
  let headers :=
    if includes TARGET_HOST url && truthy_str dashboardUrl
    then withDashboardHeaders (default "" dashboardUrl) headers
    else headers in
  originalFetch url
    (Some (mkFetchOptions (Some headers) (fo_method options) (fo_body options))).

(** Lines 33-54: [onRequestStart] replaces [global.fetch] by a wrapper around
    the function that was [global.fetch] when the request started. *)
Definition onRequestStart {A} (dashboardUrl : option string)
    (globalFetch : string -> option FetchOptions -> A)
  : string -> option FetchOptions -> A :=
  let originalFetch := globalFetch in
  patchedFetch dashboardUrl originalFetch.

(** [global.fetch] after the installation requests [requests] (their
    [dashboardUrl] parameters, the earliest first) have started in a process
    whose [fetch] was [native]. *)
Definition afterRequests {A} (requests : list (option string))
    (native : string -> option FetchOptions -> A)
  : string -> option FetchOptions -> A :=
  fold_left (fun globalFetch dashboardUrl => onRequestStart dashboardUrl globalFetch)
            requests native.

(** The [options] argument the process's original [fetch] receives when
    [global.fetch(url, options)] is called after those requests. *)
Definition received (requests : list (option string)) (url : string)
    (options : option FetchOptions) : option FetchOptions :=
  afterRequests requests (fun _ o => o) url options.

(** The headers object of an optional [options] argument. *)
Definition headersOf (options : option FetchOptions) : gmap string string :=
  default ∅ (options ≫= fo_headers).

(** The argument of [respondWithError]. *)
Record ErrorResponse : Type := mkErrorResponse {
  er_message : string;
  er_status : nat
}.

(** [onRequestVerified] returns, or throws [respondWithError(...)]. *)
Inductive Verdict : Type :=
| Accepted
| Rejected (response : ErrorResponse).

(** The collaborators of [onRequestVerified]:
    [fetchSaleorVersion(createInstrumentedGraphqlClient({ saleorApiUrl, token,
    dashboardUrl }))], and
    [new SaleorVersionCompatibilityValidator(range).isValid(version)]. *)
Record Collaborators (World : Type) : Type := mkCollaborators {
  fetchSaleorVersion :
    string -> string -> option string -> World -> Outcome (option string) * World;
  isValid : string -> string -> bool
}.
Arguments fetchSaleorVersion {World} c.
Arguments isValid {World} c.

Definition cannotCommunicate : ErrorResponse :=
  mkErrorResponse "Couldn't communicate with Saleor API" 400.

Definition noVersion : ErrorResponse :=
  mkErrorResponse "Saleor version couldn't be fetched from the API" 400.

Definition incompatible (saleorVersion : string) : ErrorResponse :=
  mkErrorResponse
    ("Saleor version (" +:+ saleorVersion
     +:+ ") is not compatible with this app version ("
     +:+ SaleorApp.REQUIRED_SALEOR_VERSION +:+ ")")
    400.

(** Lines 55-106. *)
Definition onRequestVerified {World} (C : Collaborators World)
    (dashboardUrl : option string) (token saleorApiUrl : string) (w : World)
  : Verdict * World :=
  match fetchSaleorVersion C saleorApiUrl token dashboardUrl w with
  | (Throw e, w') => (Rejected cannotCommunicate, w')
  | (Return saleorVersion, w') =>
      if negb (truthy_str saleorVersion) then (Rejected noVersion, w')
      else
        let isVersionValid :=
          isValid C SaleorApp.REQUIRED_SALEOR_VERSION (default "" saleorVersion) in
        if negb isVersionValid
        then (Rejected (incompatible (default "" saleorVersion)), w')
        else (Accepted, w')
  end.

End Register.

(** ** More concrete data for explicit runs *)

Module Demo2.

(** A semantic-version check for the range [>=3.11.7 <4] on the versions used
    below. *)
Definition valid (range version : string) : bool :=
  String.eqb range ">=3.11.7 <4"
  && (String.eqb version "3.20.1" || String.eqb version "3.11.7").

(** The tenant API answers with the version stored in the world, or is
    unreachable. *)
Definition version (saleorApiUrl token : string) (dashboardUrl : option string)
    (w : option string) : Outcome (option string) * option string :=
  match w with
  | Some v => (Return (Some v), w)
  | None => (Throw (Error "fetch failed"), w)
  end.

Definition collaborators : Register.Collaborators (option string) :=
  Register.mkCollaborators (option string) version valid.

Definition cloudEnv : gmap string string :=
  {[ "APL" := "saleor-cloud";
     "REST_APL_ENDPOINT" := "https://apl.example/api";
     "REST_APL_TOKEN" := "secret" ]}.

(** An environment whose pattern engine rejects the pattern ["("]. *)
Definition strictRegexp (p s : string) : option bool :=
  if String.eqb p "(" then None else Some (includes p s).

Definition strictEnv : Env Demo.World :=
  mkEnv Demo.World Demo.get Demo.parse Demo.decode Demo.verify Demo.fetch403
        (Demo.sync false) strictRegexp ["MANAGE_APPS"].

(** The key-set endpoint answers 200. *)
Definition fetch200 (input : string) (init : RequestInit) (w : Demo.World)
  : Outcome Response * Demo.World :=
  (Return (mkResponse true "OK"), w).

Definition okEnv : Env Demo.World :=
  mkEnv Demo.World Demo.get Demo.parse Demo.decode Demo.verify fetch200
        (Demo.sync false) Demo.regexp ["MANAGE_APPS"].

(** A store where nothing is installed. *)
Definition empty (n : nat) : State Demo.World :=
  mkState (Demo.mkWorld ∅ n) [].

(** A browser request that names the installed app and another tenant's API
    URL, with a token the tenant signed for the app. *)
Definition spoofedCtx : Ctx :=
  mkCtx (Some "jwt-staff") (Some "https://attacker.example/graphql/")
        (Some "app-1") None (Some "https://app.example") None None None None
        None.

(** The context and the state the three middlewares produce for it. *)
Definition handlerCtx : Ctx :=
  mkCtx (Some "jwt-staff") (Some "https://tenant.example/graphql/")
        (Some "app-1") None (Some "https://app.example") (Some "app-token")
        None
        (Some (mkClient (Some "https://tenant.example/graphql/")
                        (Some "app-token") "dashboard.example"))
        None None.

Definition handlerState : State Demo.World :=
  mkState (Demo.mkWorld {[ "app-1" := Demo.tenant ]} 2)
          [EvAplGet "app-1"; EvAplGet "app-1";
           EvJwtVerify "jwt-staff" Demo.jwksEndpoint; EvAplGet "app-1"].

(** The key-set endpoint answers 403: [jose.jwtVerify] cannot load the key
    set and rejects every token with its own error. *)
Definition keySetForbidden (t : string) (u : URL) (h : Headers) (w : Demo.World)
  : Outcome unit * Demo.World :=
  (Throw (Error "Expected 200 OK from the JSON Web Key Set HTTP response"), w).

Definition forbiddenEnv : Env Demo.World :=
  mkEnv Demo.World Demo.get Demo.parse Demo.decode keySetForbidden
        Demo.fetch403 (Demo.sync false) Demo.regexp ["MANAGE_APPS"].

(** A request without a tenant API URL. *)
Definition anonymousCtx : Ctx :=
  mkCtx (Some "jwt-staff") None (Some "app-1") None None None None None None
        None.

End Demo2.

(** * Properties *)

(** Unfolding of the monad's operations. *)
Ltac unfold_monad :=
  unfold mbind, M_bind, mret, M_ret, try_catch, throw, call in *.

Section MonadFacts.
Context {World : Type}.

Lemma bind_Return {A B} (c : M World A) (f : A -> M World B) st a st' :
  c st = (Return a, st') -> (c ≫= f) st = f a st'.
Proof. intros H. unfold_monad. now rewrite H. Qed.

Lemma bind_Throw {A B} (c : M World A) (f : A -> M World B) st e st' :
  c st = (Throw e, st') -> (c ≫= f) st = (Throw e, st').
Proof. intros H. unfold_monad. now rewrite H. Qed.

End MonadFacts.

Lemma ctx_eta (ctx : Ctx) :
  mkCtx (token ctx) (saleorApiUrl ctx) (appId ctx) (ssr ctx) (baseUrl ctx)
        (appToken ctx) (dashboardUrl ctx) (apiClient ctx)
        (smtpConfigurationService ctx) (featureFlagService ctx) = ctx.
Proof. now destruct ctx. Qed.

Lemma includes_empty (s : string) : includes "" s = true.
Proof. destruct s; reflexivity. Qed.

Section VerifyFacts.
Context {World : Type} (E : Env World).

(** The verifier's steps, for a well-formed tenant URL and a token that
    decodes. *)
Lemma verifyJWT_steps (a : VerifyArgs) (st : State World) (u j : URL)
    (claims : JWTPayload) :
  URL_parse E (v_saleorApiUrl a) = Some u ->
  URL_parse E (origin u +:+ "/.well-known/jwks.json") = Some j ->
  jose_decodeJwt E (v_token a) = inr claims ->
  verifyJWTWithCustomHeaders E a st =
    match jose_jwtVerify E (v_token a) j (jwksHeaders a) (world st) with
    | (Return _, w) =>
        if app_differs claims (v_appId a)
        then (Throw appMismatchError, afterVerify a j st w)
        else (Return claims, afterVerify a j st w)
    | (Throw e, w) => (Throw (signatureError e), afterVerify a j st w)
    end.
Proof.
  intros Hu Hj Hd.
  unfold verifyJWTWithCustomHeaders, getJwksUrlFromSaleorApiUrl,
    createCustomRemoteJWKSet, new_URL, jwksHeaders, afterVerify.
  rewrite Hu. unfold_monad. cbn. rewrite Hj. cbn. rewrite Hd. cbn.
  destruct (jose_jwtVerify E _ _ _ _) as [[[]|e] w]; cbn;
    [destruct (app_differs claims (v_appId a))|]; reflexivity.
Qed.

(** The verifier never reads [requiredPermissions]. *)
Lemma verifyJWT_ignores_requiredPermissions (a : VerifyArgs)
    (required : list string) (st : State World) :
  verifyJWTWithCustomHeaders E
    (mkVerifyArgs (v_saleorApiUrl a) (v_token a) (v_appId a) required
                  (v_dashboardUrl a)) st
  = verifyJWTWithCustomHeaders E a st.
Proof. reflexivity. Qed.

Lemma app_differs_true (claims : JWTPayload) (id : string) :
  app claims <> Some id -> app_differs claims id = true.
Proof.
  intros H. unfold app_differs. now rewrite bool_decide_eq_false_2.
Qed.

(** C2, amended: the signature is checked before the [app] claim.  For a
    well-formed tenant URL and a token that decodes with an [app] claim
    different from the expected [appId], the verifier fails with the
    app-mismatch error when the signature verifies against the tenant's key
    set, and with the signature error when it does not. *)
Theorem verifyJWT_app_mismatch_after_signature (a : VerifyArgs)
    (st : State World) (u j : URL) (claims : JWTPayload) :
  URL_parse E (v_saleorApiUrl a) = Some u ->
  URL_parse E (origin u +:+ "/.well-known/jwks.json") = Some j ->
  jose_decodeJwt E (v_token a) = inr claims ->
  app claims <> Some (v_appId a) ->
  (forall w,
      jose_jwtVerify E (v_token a) j (jwksHeaders a) (world st) = (Return tt, w) ->
      verifyJWTWithCustomHeaders E a st
      = (Throw appMismatchError, afterVerify a j st w))
  /\
  (forall e w,
      jose_jwtVerify E (v_token a) j (jwksHeaders a) (world st) = (Throw e, w) ->
      verifyJWTWithCustomHeaders E a st
      = (Throw (signatureError e), afterVerify a j st w)).
Proof.
  intros Hu Hj Hd Happ.
  split; intros; rewrite (verifyJWT_steps a st u j claims Hu Hj Hd), H.
  - now rewrite (app_differs_true _ _ Happ).
  - reflexivity.
Qed.

End VerifyFacts.

(** C2, witness: a token signed by the tenant for another app. *)
Lemma verifyJWT_app_mismatch_after_signature_witness :
  fst (verifyJWTWithCustomHeaders (Demo.env false)
         (Demo.args "jwt-other" []) (Demo.installed 5))
  = Throw appMismatchError.
Proof.
  destruct (verifyJWT_app_mismatch_after_signature (Demo.env false)
              (Demo.args "jwt-other" []) (Demo.installed 5)
              (mkURL "https://tenant.example/graphql/" "https://tenant.example")
              (mkURL Demo.jwksEndpoint "https://tenant.example")
              (mkJWTPayload (Some "app-2") ["MANAGE_APPS"])
              eq_refl eq_refl eq_refl ltac:(discriminate)) as [Hok _].
  rewrite (Hok _ eq_refl). reflexivity.
Defined.

(** C2, counterexample: a token that decodes, names another app and is not
    signed by the tenant is rejected for its signature, not for the app
    mismatch. *)
Lemma verifyJWT_forged_token_reports_signature :
  let a := Demo.args "jwt-forged" [] in
  exists claims,
    jose_decodeJwt (Demo.env false) (v_token a) = inr claims
    /\ app claims <> Some (v_appId a)
    /\ fst (verifyJWTWithCustomHeaders (Demo.env false) a (Demo.installed 5))
       = Throw (signatureError (Error "signature verification failed"))
    /\ fst (verifyJWTWithCustomHeaders (Demo.env false) a (Demo.installed 5))
       <> Throw appMismatchError.
Proof.
  exists (mkJWTPayload (Some "app-2") ["MANAGE_APPS"]).
  repeat split; try reflexivity; vm_compute; discriminate.
Qed.

(** C1: the verifier returns the claim set of a token that is signed by the
    tenant for the expected app although the claims grant none of the
    required permissions. *)
Theorem verifyJWT_returns_claims_without_required_permission :
  let required := ["MANAGE_APPS"] in
  let claims := mkJWTPayload (Some "app-1") [] in
  fst (verifyJWTWithCustomHeaders (Demo.env false)
         (Demo.args "jwt-staff" required) (Demo.installed 5))
  = Return claims
  /\ In "MANAGE_APPS" required
  /\ permissions claims = [].
Proof.
  cbn zeta. split; [reflexivity|]. split; [now left | reflexivity].
Qed.

(** The same request through [validateClientToken], with an
    operation-specific permission on top of the baseline: the stage hands
    the request on. *)
Lemma validateClientToken_passes_without_permission :
  let meta := Some (mkMeta (Some ["MANAGE_ORDERS"]) None) in
  requiredPermissionsOf (Demo.env false) meta = ["MANAGE_APPS"; "MANAGE_ORDERS"]
  /\ fst (validateClientToken (Demo.env false) (Demo.browserCtx "jwt-staff")
            meta Demo.echo (Demo.installed 5))
     = Return (Demo.browserCtx "jwt-staff").
Proof. split; reflexivity. Qed.

Section ServicesFacts.
Context {World : Type} (E : Env World) {R : Type}.
Implicit Types (ctx : Ctx) (meta : option Meta) (next : Ctx -> M World R).

(** Without the flag the middleware is [next] on the extended context. *)
Lemma services_unflagged ctx meta next st :
  truthy_bool (meta ≫= updateWebhooks) = false ->
  protectedWithConfigurationServices E ctx meta next st = next (servicesCtx ctx) st.
Proof.
  intros Hflag. unfold protectedWithConfigurationServices. rewrite Hflag.
  unfold_monad. destruct (next (servicesCtx ctx) st) as [[r|e] st1]; reflexivity.
Qed.

(** With the flag, once [next] has returned, the outcome is decided by
    [syncWebhookStatus]. *)
Lemma services_flagged ctx meta next st result st1 :
  truthy_bool (meta ≫= updateWebhooks) = true ->
  next (servicesCtx ctx) st = (Return result, st1) ->
  protectedWithConfigurationServices E ctx meta next st =
    (match fst (syncWebhookStatus E (syncArgsOf ctx) (world st1)) with
     | Return _ => Return result
     | Throw e => Throw e
     end,
     mkState (snd (syncWebhookStatus E (syncArgsOf ctx) (world st1)))
             (trace st1 ++ [EvSyncWebhookStatus (syncArgsOf ctx)])).
Proof.
  intros Hflag Hnext. unfold protectedWithConfigurationServices.
  rewrite Hflag. unfold_monad. rewrite Hnext.
  destruct (syncWebhookStatus E (syncArgsOf ctx) (world st1)) as [[[]|e] w];
    reflexivity.
Qed.

(** When [next] throws, the error is passed on and nothing else is called. *)
Lemma services_next_throws ctx meta next st e st1 :
  next (servicesCtx ctx) st = (Throw e, st1) ->
  protectedWithConfigurationServices E ctx meta next st = (Throw e, st1).
Proof.
  intros Hnext. unfold protectedWithConfigurationServices.
  unfold_monad. now rewrite Hnext.
Qed.

Lemma syncCalls_snoc (t : list Event) (a : SyncArgs) :
  syncCalls (t ++ [EvSyncWebhookStatus a]) = S (syncCalls t).
Proof.
  unfold syncCalls. rewrite List.filter_app, length_app. cbn. lia.
Qed.

(** C3, amended: for a request flagged as configuration-mutating whose
    business operation returned [result], the middleware returns [result]
    when [syncWebhookStatus] completes, and fails with the error of
    [syncWebhookStatus] when that call throws. *)
Theorem reconciliation_outcome_decides_request ctx meta next st result st1 :
  truthy_bool (meta ≫= updateWebhooks) = true ->
  next (servicesCtx ctx) st = (Return result, st1) ->
  (forall w,
      syncWebhookStatus E (syncArgsOf ctx) (world st1) = (Return tt, w) ->
      fst (protectedWithConfigurationServices E ctx meta next st) = Return result)
  /\
  (forall e w,
      syncWebhookStatus E (syncArgsOf ctx) (world st1) = (Throw e, w) ->
      fst (protectedWithConfigurationServices E ctx meta next st) = Throw e).
Proof.
  intros Hflag Hnext.
  split; intros; rewrite (services_flagged _ _ _ _ _ _ Hflag Hnext), H;
    reflexivity.
Qed.

(** C4: without the flag the middleware does exactly what [next] does and
    makes no call of [syncWebhookStatus].  With the flag, once [next] has
    returned, the middleware calls [syncWebhookStatus] exactly once, after
    everything [next] did and in the world [next] left: the world and the
    outcome of the request are the ones that call produces. *)
Theorem webhook_sync_runs_exactly_when_flagged ctx meta next st :
  (truthy_bool (meta ≫= updateWebhooks) = false ->
     protectedWithConfigurationServices E ctx meta next st
       = next (servicesCtx ctx) st
     /\ syncCalls (trace (snd (protectedWithConfigurationServices E ctx meta next st)))
        = syncCalls (trace (snd (next (servicesCtx ctx) st))))
  /\
  (truthy_bool (meta ≫= updateWebhooks) = true ->
     forall result st1,
       next (servicesCtx ctx) st = (Return result, st1) ->
       protectedWithConfigurationServices E ctx meta next st
         = (match fst (syncWebhookStatus E (syncArgsOf ctx) (world st1)) with
            | Return _ => Return result
            | Throw e => Throw e
            end,
            mkState (snd (syncWebhookStatus E (syncArgsOf ctx) (world st1)))
                    (trace st1 ++ [EvSyncWebhookStatus (syncArgsOf ctx)]))
       /\ syncCalls (trace (snd (protectedWithConfigurationServices E ctx meta next st)))
          = S (syncCalls (trace st1))).
Proof.
  split.
  - intros Hflag. now rewrite services_unflagged.
  - intros Hflag result st1 Hnext.
    rewrite (services_flagged _ _ _ _ _ _ Hflag Hnext).
    split; [reflexivity | apply syncCalls_snoc].
Qed.

End ServicesFacts.

(** C3, witness: a mutating request whose reconciliation completes. *)
Lemma reconciliation_outcome_decides_request_witness :
  fst (protectedWithConfigurationServices (Demo.env false)
         (Demo.browserCtx "jwt-staff") Demo.mutating Demo.echo (Demo.installed 5))
  = Return (servicesCtx (Demo.browserCtx "jwt-staff")).
Proof.
  destruct (reconciliation_outcome_decides_request (Demo.env false)
              (Demo.browserCtx "jwt-staff") Demo.mutating Demo.echo
              (Demo.installed 5) _ _ eq_refl eq_refl) as [Hok _].
  exact (Hok _ eq_refl).
Defined.

(** C3, counterexample: the business operation returns, the reconciliation
    throws, and the request fails with the reconciliation error. *)
Lemma reconciliation_failure_fails_request :
  let ctx := Demo.browserCtx "jwt-staff" in
  let E := Demo.env true in
  truthy_bool (Demo.mutating ≫= updateWebhooks) = true
  /\ Demo.echo (servicesCtx ctx) (Demo.installed 5)
     = (Return (servicesCtx ctx), Demo.installed 5)
  /\ fst (syncWebhookStatus E (syncArgsOf ctx) (world (Demo.installed 5)))
     = Throw (Error "Could not create webhook")
  /\ fst (protectedWithConfigurationServices E ctx Demo.mutating Demo.echo
            (Demo.installed 5))
     = Throw (Error "Could not create webhook")
  /\ fst (protectedWithConfigurationServices E ctx Demo.mutating Demo.echo
            (Demo.installed 5))
     <> Return (servicesCtx ctx).
Proof.
  cbn zeta. repeat split; try reflexivity. vm_compute. discriminate.
Qed.

(** C4, witness: a read request makes no reconciliation call; a mutating
    request makes one, after the business operation, and a failing
    reconciliation is the outcome of the request. *)
Lemma webhook_sync_runs_exactly_when_flagged_witness :
  syncCalls (trace (snd (protectedWithConfigurationServices (Demo.env false)
      (Demo.browserCtx "jwt-staff") Demo.reading Demo.echo (Demo.installed 5)))) = 0
  /\
  syncCalls (trace (snd (protectedWithConfigurationServices (Demo.env false)
      (Demo.browserCtx "jwt-staff") Demo.mutating Demo.echo (Demo.installed 5)))) = 1
  /\
  fst (protectedWithConfigurationServices (Demo.env true)
         (Demo.browserCtx "jwt-staff") Demo.mutating Demo.echo (Demo.installed 5))
  = Throw (Error "Could not create webhook").
Proof.
  destruct (webhook_sync_runs_exactly_when_flagged (Demo.env false)
              (Demo.browserCtx "jwt-staff") Demo.reading Demo.echo
              (Demo.installed 5)) as [Hread _].
  destruct (webhook_sync_runs_exactly_when_flagged (Demo.env false)
              (Demo.browserCtx "jwt-staff") Demo.mutating Demo.echo
              (Demo.installed 5)) as [_ Hwrite].
  destruct (webhook_sync_runs_exactly_when_flagged (Demo.env true)
              (Demo.browserCtx "jwt-staff") Demo.mutating Demo.echo
              (Demo.installed 5)) as [_ Hfails].
  split; [|split].
  - destruct (Hread eq_refl) as [_ Hcount]. rewrite Hcount. reflexivity.
  - destruct (Hwrite eq_refl _ _ eq_refl) as [_ Hcount]. rewrite Hcount.
    reflexivity.
  - destruct (Hfails eq_refl _ _ eq_refl) as [Hrun _]. rewrite Hrun.
    reflexivity.
Defined.

Section ChainFacts.
Context {World : Type} (E : Env World) {R : Type}.
Implicit Types (ctx : Ctx) (meta : option Meta) (next : Ctx -> M World R).

Lemma validate_server ctx meta next st :
  complete ctx -> truthy_bool (ssr ctx) = true ->
  validateClientToken E ctx meta next st = next ctx st.
Proof.
  intros (Ht & Ha & Hu) Hssr. unfold validateClientToken.
  rewrite Ht, Ha, Hu, Hssr, ctx_eta. reflexivity.
Qed.

Lemma validate_browser ctx meta next st :
  complete ctx -> truthy_bool (ssr ctx) = false ->
  validateClientToken E ctx meta next st =
    match verifyClientToken E ctx meta st with
    | (Return _, st') => next ctx st'
    | (Throw _, st') => (Throw jwtVerificationFailed, st')
    end.
Proof.
  intros (Ht & Ha & Hu) Hssr. unfold validateClientToken.
  rewrite Ht, Ha, Hu, Hssr, ctx_eta. unfold_monad. cbn.
  destruct (verifyClientToken E ctx meta st) as [[c|e] st']; reflexivity.
Qed.

Lemma validate_incomplete ctx meta next st :
  truthy_str (token ctx) = false ->
  validateClientToken E ctx meta next st = (Throw missingToken, st).
Proof. intros Ht. unfold validateClientToken. now rewrite Ht. Qed.

Lemma verifyClientToken_after_lookup ctx meta st d st1 :
  storedDashboardUrl E ctx st = (Return d, st1) ->
  verifyClientToken E ctx meta st
  = verifyJWTWithCustomHeaders E (verifyArgsOf E ctx meta d) st1.
Proof. intros H. unfold verifyClientToken. now rewrite (bind_Return _ _ _ _ _ H). Qed.

(** A failed lookup of the tenant's record inside the [try] block is
    reported like a failed verification. *)
Lemma validate_lookup_failure ctx meta next st e st1 :
  complete ctx -> truthy_bool (ssr ctx) = false ->
  storedDashboardUrl E ctx st = (Throw e, st1) ->
  validateClientToken E ctx meta next st = (Throw jwtVerificationFailed, st1).
Proof.
  intros Hc Hssr Hl. rewrite validate_browser by assumption.
  unfold verifyClientToken. now rewrite (bind_Throw _ _ _ _ _ Hl).
Qed.

(** C6: for a browser-originated request that reaches the verification,
    whatever error [verifyJWTWithCustomHeaders] fails with, the stage fails
    with the one [ProtectedHandlerError] of type [JWT_VERIFICATION_FAILED];
    the error of the verifier is not part of it. *)
Theorem validateClientToken_collapses_failures ctx meta next st d st1 e st2 :
  complete ctx ->
  truthy_bool (ssr ctx) = false ->
  storedDashboardUrl E ctx st = (Return d, st1) ->
  verifyJWTWithCustomHeaders E (verifyArgsOf E ctx meta d) st1 = (Throw e, st2) ->
  validateClientToken E ctx meta next st = (Throw jwtVerificationFailed, st2).
Proof.
  intros Hc Hssr Hl Hv. rewrite validate_browser by assumption.
  now rewrite (verifyClientToken_after_lookup _ _ _ _ _ Hl), Hv.
Qed.

(** C7, amended: for a context that carries a token, an app id and a tenant
    URL, the stage with [ssr] set performs nothing but [next] on the
    unchanged context; with [ssr] not set it reads the tenant's
    [dashboardUrl] from the store, runs [verifyJWTWithCustomHeaders] and goes
    on to [next] only when that returns.  A context without a token is
    rejected with [missingToken], whatever [ssr] is. *)
Theorem validateClientToken_ssr_gate ctx meta next st :
  (complete ctx -> truthy_bool (ssr ctx) = true ->
     validateClientToken E ctx meta next st = next ctx st)
  /\
  (complete ctx -> truthy_bool (ssr ctx) = false ->
     forall d st1,
       storedDashboardUrl E ctx st = (Return d, st1) ->
       validateClientToken E ctx meta next st =
         match verifyJWTWithCustomHeaders E (verifyArgsOf E ctx meta d) st1 with
         | (Return _, st2) => next ctx st2
         | (Throw _, st2) => (Throw jwtVerificationFailed, st2)
         end)
  /\
  (truthy_str (token ctx) = false ->
     validateClientToken E ctx meta next st = (Throw missingToken, st)).
Proof.
  split; [|split].
  - apply validate_server.
  - intros Hc Hssr d st1 Hl. rewrite validate_browser by assumption.
    now rewrite (verifyClientToken_after_lookup _ _ _ _ _ Hl).
  - apply validate_incomplete.
Qed.

(** C8, amended: the stage looks the tenant's record up once more.  When the
    store returns a record the stage builds the client and goes on to [next]
    with the client attached; when the lookup fails, the stage fails with the
    error of the store. *)
Theorem attachApiClient_depends_on_lookup ctx next st :
  (forall authData w,
      apl_get E (or_empty (appId ctx)) (world st) = (Return (Some authData), w) ->
      attachApiClient E ctx next st
      = next (clientCtx ctx (ad_dashboardUrl authData)) (afterLookup ctx st w))
  /\
  (forall e w,
      apl_get E (or_empty (appId ctx)) (world st) = (Throw e, w) ->
      attachApiClient E ctx next st = (Throw e, afterLookup ctx st w)).
Proof.
  split; intros; unfold attachApiClient, storedDashboardUrl;
    unfold_monad; rewrite H; reflexivity.
Qed.

End ChainFacts.

(** C6, witness: a token that is not a JWT. *)
Lemma validateClientToken_collapses_failures_witness :
  fst (validateClientToken (Demo.env false) (Demo.browserCtx "not-a-jwt")
         Demo.reading Demo.echo (Demo.installed 5))
  = Throw jwtVerificationFailed.
Proof.
  rewrite (validateClientToken_collapses_failures (Demo.env false)
             (Demo.browserCtx "not-a-jwt") Demo.reading Demo.echo
             (Demo.installed 5) "dashboard.example" _
             (decodeError (Error "Invalid JWT")) _
             (conj eq_refl (conj eq_refl eq_refl)) eq_refl eq_refl eq_refl).
  reflexivity.
Defined.

(** The four ways the verifier fails end in the same external error. *)
Lemma validateClientToken_same_error_for_all_reasons :
  let run t := fst (validateClientToken (Demo.env false) (Demo.browserCtx t)
                      Demo.reading Demo.echo (Demo.installed 5)) in
  run "not-a-jwt" = Throw jwtVerificationFailed
  /\ run "jwt-forged" = Throw jwtVerificationFailed
  /\ run "jwt-other" = Throw jwtVerificationFailed.
Proof. repeat split. Qed.

(** C7, witness: a server-originated and a browser-originated request that
    carry a token. *)
Lemma validateClientToken_ssr_gate_witness :
  let server :=
    mkCtx (Some "jwt-forged") (Some "https://tenant.example/graphql/")
          (Some "app-1") (Some true) None None None None None None in
  validateClientToken (Demo.env false) server Demo.reading Demo.echo
    (Demo.installed 5) = (Return server, Demo.installed 5)
  /\ fst (validateClientToken (Demo.env false) (Demo.browserCtx "jwt-forged")
            Demo.reading Demo.echo (Demo.installed 5))
     = Throw jwtVerificationFailed.
Proof.
  cbn zeta. split.
  - destruct (validateClientToken_ssr_gate (Demo.env false)
      (mkCtx (Some "jwt-forged") (Some "https://tenant.example/graphql/")
             (Some "app-1") (Some true) None None None None None None)
      Demo.reading Demo.echo (Demo.installed 5)) as [Hserver _].
    exact (Hserver (conj eq_refl (conj eq_refl eq_refl)) eq_refl).
  - destruct (validateClientToken_ssr_gate (Demo.env false)
      (Demo.browserCtx "jwt-forged") Demo.reading Demo.echo
      (Demo.installed 5)) as (_ & Hbrowser & _).
    rewrite (Hbrowser (conj eq_refl (conj eq_refl eq_refl)) eq_refl
               "dashboard.example" _ eq_refl).
    reflexivity.
Defined.

(** C7, counterexample: a server-originated request ([ssr] set) without a
    bearer token passes the first stage and is terminated by the
    validate-bearer-token stage. *)
Lemma validateClientToken_rejects_server_request_without_token :
  truthy_bool (ssr Demo.serverCtx) = true
  /\ fst (validateClientToken (Demo.env false) Demo.serverCtx Demo.reading
            Demo.echo (Demo.installed 5))
     = Throw missingToken
  /\ fst (protectedClientProcedure (Demo.env false) Demo.serverCtx Demo.reading
            Demo.echo (Demo.installed 5))
     = Throw missingToken.
Proof. repeat split. Qed.

(** C8, witness: the record is found, and the store is unreachable. *)
Lemma attachApiClient_depends_on_lookup_witness :
  fst (attachApiClient (Demo.env false) (Demo.browserCtx "jwt-staff") Demo.echo
         (Demo.installed 5))
  = Return (clientCtx (Demo.browserCtx "jwt-staff") "dashboard.example")
  /\ fst (attachApiClient (Demo.env false) (Demo.browserCtx "jwt-staff") Demo.echo
            (Demo.installed 0))
     = Throw (Error "fetch failed").
Proof.
  split.
  - destruct (attachApiClient_depends_on_lookup (Demo.env false)
                (Demo.browserCtx "jwt-staff") Demo.echo (Demo.installed 5))
      as [Hfound _].
    rewrite (Hfound Demo.tenant _ eq_refl). reflexivity.
  - destruct (attachApiClient_depends_on_lookup (Demo.env false)
                (Demo.browserCtx "jwt-staff") Demo.echo (Demo.installed 0))
      as [_ Hfails].
    rewrite (Hfails _ _ eq_refl). reflexivity.
Defined.

(** C8, counterexample: the first two stages succeed on a browser request
    with a valid token; the store stops answering before the third stage,
    which terminates the request. *)
Lemma attachApiClient_fails_when_store_unreachable :
  let E := Demo.env false in
  exists c2 st2,
    identityAndToken E (Demo.browserCtx "jwt-staff") Demo.reading
      (Demo.installed 2) = (Return c2, st2)
    /\ fst (attachApiClient E c2 Demo.echo st2) = Throw (Error "fetch failed")
    /\ fst (protectedClientProcedure E (Demo.browserCtx "jwt-staff")
              Demo.reading Demo.echo (Demo.installed 2))
       = Throw (Error "fetch failed").
Proof.
  cbn zeta.
  pose (r := identityAndToken (Demo.env false) (Demo.browserCtx "jwt-staff")
               Demo.reading (Demo.installed 2)).
  exists (match fst r with Return c => c | Throw _ => emptyCtx end), (snd r).
  vm_compute. repeat split.
Qed.

Section KeySetAndRegisterFacts.
Context {World : Type} (E : Env World).

(** The closure of lines 56-71 on its own: a response with a non-success
    status becomes an [Error] with the status text, and an error of [fetch]
    is passed on. *)
Lemma fetchWithHeaders_failure (headers : Headers) (input : string)
    (init : option RequestInit) (st : State World) :
  (forall response w,
      fetch E input (default (mkRequestInit headers) init) (world st)
        = (Return response, w) ->
      ok response = false ->
      fst (fetchWithHeaders E headers input init st)
      = Throw (Error ("Failed to fetch JWKS: " +:+ statusText response)))
  /\
  (forall e w,
      fetch E input (default (mkRequestInit headers) init) (world st)
        = (Throw e, w) ->
      fst (fetchWithHeaders E headers input init st) = Throw e).
Proof.
  split; intros; unfold fetchWithHeaders; unfold_monad; rewrite H.
  - cbn. now rewrite H0.
  - reflexivity.
Qed.

(** C10: with [ALLOWED_DOMAIN_PATTERN] unset every URL is allowed; with the
    variable set to [p], the validator answers what [new RegExp(p).test(url)]
    answers.  The empty pattern, which the code treats like an unset variable,
    matches every string. *)
Theorem allowedSaleorUrls_spec (url : string) :
  (forall s, RegExp_test E "" s = Some true) ->
  allowedSaleorUrls E None url = Return true
  /\
  (forall p b,
      RegExp_test E p url = Some b ->
      allowedSaleorUrls E (Some p) url = Return b).
Proof.
  intros Hempty. split; [reflexivity|].
  intros p b Hp. unfold allowedSaleorUrls. cbn.
  destruct (String.eqb_spec p "") as [->|Hne]; cbn.
  - rewrite Hempty in Hp. congruence.
  - now rewrite Hp.
Qed.

(** An invalid pattern makes the validator throw. *)
Lemma allowedSaleorUrls_invalid_pattern (p url : string) :
  p <> "" -> RegExp_test E p url = None ->
  allowedSaleorUrls E (Some p) url = Throw (SyntaxError "Invalid regular expression").
Proof.
  intros Hne Hp. unfold allowedSaleorUrls. cbn.
  destruct (String.eqb_spec p "") as [->|_]; [congruence|]. cbn. now rewrite Hp.
Qed.

End KeySetAndRegisterFacts.

(** C9, amended: [jose.jwtVerify] loads the key set itself while it
    verifies.  When the key-set endpoint answers with a non-success status
    or cannot be reached, that call rejects with the error of [jose], and the
    verifier fails with an [Error] whose message is ["JWT verification
    failed: Signature verification failed: "] followed by the message of that
    error: the same wrapping as for a bad signature, with nothing added. *)
Theorem verifyJWT_key_set_failure {World} (E : Env World) (a : VerifyArgs)
    (st : State World) (u j : URL) (claims : JWTPayload) (e : JsError)
    (w : World) :
  URL_parse E (v_saleorApiUrl a) = Some u ->
  URL_parse E (origin u +:+ "/.well-known/jwks.json") = Some j ->
  jose_decodeJwt E (v_token a) = inr claims ->
  jose_jwtVerify E (v_token a) j (jwksHeaders a) (world st) = (Throw e, w) ->
  verifyJWTWithCustomHeaders E a st
  = (Throw (Error ("JWT verification failed: Signature verification failed: "
                   +:+ message e)),
     afterVerify a j st w).
Proof.
  intros Hu Hj Hd Hv.
  rewrite (verifyJWT_steps E a st u j claims Hu Hj Hd), Hv. reflexivity.
Qed.

(** C9, witness: the key-set endpoint answers 403. *)
Lemma verifyJWT_key_set_failure_witness :
  fst (verifyJWTWithCustomHeaders Demo2.forbiddenEnv (Demo.args "jwt-staff" [])
         (Demo.installed 5))
  = Throw (Error ("JWT verification failed: Signature verification failed: "
                  +:+ "Expected 200 OK from the JSON Web Key Set HTTP response")).
Proof.
  rewrite (verifyJWT_key_set_failure Demo2.forbiddenEnv
             (Demo.args "jwt-staff" []) (Demo.installed 5)
             (mkURL "https://tenant.example/graphql/" "https://tenant.example")
             (mkURL Demo.jwksEndpoint "https://tenant.example")
             (mkJWTPayload (Some "app-1") [])
             (Error "Expected 200 OK from the JSON Web Key Set HTTP response")
             (world (Demo.installed 5)) eq_refl eq_refl eq_refl eq_refl).
  reflexivity.
Defined.

(** C9, counterexample: the key-set endpoint answers 403 for a token the
    tenant signed; the verifier fails with the signature error, whose
    message does not contain the endpoint URL. *)
Lemma verifyJWT_key_set_403_message_lacks_url :
  exists e,
    fst (verifyJWTWithCustomHeaders Demo2.forbiddenEnv
           (Demo.args "jwt-staff" []) (Demo.installed 5)) = Throw e
    /\ message e
       = "JWT verification failed: Signature verification failed: Expected 200 OK from the JSON Web Key Set HTTP response"
    /\ includes Demo.jwksEndpoint (message e) = false.
Proof.
  exists (signatureError
            (Error "Expected 200 OK from the JSON Web Key Set HTTP response")).
  repeat split.
Qed.

Lemma regexp_empty_matches (s : string) :
  RegExp_test (Demo.env false) "" s = Some true.
Proof. cbn. unfold Demo.regexp. now rewrite includes_empty. Qed.

(** C10, witness: a pattern without metacharacters. *)
Lemma allowedSaleorUrls_spec_witness :
  allowedSaleorUrls (Demo.env false) None "https://evil.example/graphql/"
    = Return true
  /\ allowedSaleorUrls (Demo.env false) (Some "comercia.me")
       "https://api-commerce.comercia.me/graphql/" = Return true
  /\ allowedSaleorUrls (Demo.env false) (Some "comercia.me")
       "https://evil.example/graphql/" = Return false.
Proof.
  split; [|split].
  - exact (proj1 (allowedSaleorUrls_spec (Demo.env false)
                    "https://evil.example/graphql/" regexp_empty_matches)).
  - exact (proj2 (allowedSaleorUrls_spec (Demo.env false)
                    "https://api-commerce.comercia.me/graphql/" regexp_empty_matches)
                 "comercia.me" true eq_refl).
  - exact (proj2 (allowedSaleorUrls_spec (Demo.env false)
                    "https://evil.example/graphql/" regexp_empty_matches)
                 "comercia.me" false eq_refl).
Defined.

Module WebhookDifferFacts.
Import WebhookDiffer.

Lemma toDelete_spec owned desired actual (a : RemoteWebhook) :
  In a (toDelete (diff owned desired actual)) <->
  In a actual
  /\ existsb (fun d => same_key d a) desired = false
  /\ owned (rw_name a) = true.
Proof.
  unfold diff. cbn. rewrite List.filter_In, andb_true_iff, negb_true_iff.
  tauto.
Qed.

(** C5: a remote webhook whose name is not owned is never in [toDelete],
    whatever the desired manifest is. *)
Theorem diff_never_deletes_foreign owned desired actual (a : RemoteWebhook) :
  owned (rw_name a) = false ->
  ~ In a (toDelete (diff owned desired actual)).
Proof.
  intros Hforeign Hin. apply toDelete_spec in Hin as (_ & _ & Howned).
  congruence.
Qed.

(** C5, witness: an empty manifest against a registry that holds the app's
    webhook and a foreign one. *)
Lemma diff_never_deletes_foreign_witness :
  ~ In Demo.crmSync
      (toDelete (diff (owned_by_set Demo.ownedNames) []
                      [Demo.orderCreated; Demo.crmSync])).
Proof.
  apply (diff_never_deletes_foreign (owned_by_set Demo.ownedNames) []
           [Demo.orderCreated; Demo.crmSync] Demo.crmSync).
  vm_compute. reflexivity.
Defined.

(** The owned webhook of that registry is deleted. *)
Lemma diff_deletes_owned_absent :
  toDelete (diff (owned_by_set Demo.ownedNames) []
                 [Demo.orderCreated; Demo.crmSync])
  = [Demo.orderCreated].
Proof. vm_compute. reflexivity. Qed.

End WebhookDifferFacts.

(** * Further properties of the verifier *)

Section VerifierMore.
Context {World : Type} (E : Env World).

(** An ill-formed tenant URL stops the verifier before anything else. *)
Lemma verifyJWT_bad_url (a : VerifyArgs) (st : State World) :
  URL_parse E (v_saleorApiUrl a) = None ->
  verifyJWTWithCustomHeaders E a st = (Throw (TypeError "Invalid URL"), st).
Proof.
  intros Hu.
  unfold verifyJWTWithCustomHeaders, getJwksUrlFromSaleorApiUrl, new_URL.
  rewrite Hu. reflexivity.
Qed.

Lemma verifyJWT_bad_jwks_url (a : VerifyArgs) (st : State World) (u : URL) :
  URL_parse E (v_saleorApiUrl a) = Some u ->
  URL_parse E (origin u +:+ "/.well-known/jwks.json") = None ->
  verifyJWTWithCustomHeaders E a st = (Throw (TypeError "Invalid URL"), st).
Proof.
  intros Hu Hj.
  unfold verifyJWTWithCustomHeaders, getJwksUrlFromSaleorApiUrl,
    createCustomRemoteJWKSet, new_URL.
  rewrite Hu. unfold_monad. cbn. rewrite Hj. reflexivity.
Qed.

Lemma verifyJWT_undecodable (a : VerifyArgs) (st : State World) (u j : URL)
    (error : JsError) :
  URL_parse E (v_saleorApiUrl a) = Some u ->
  URL_parse E (origin u +:+ "/.well-known/jwks.json") = Some j ->
  jose_decodeJwt E (v_token a) = inl error ->
  verifyJWTWithCustomHeaders E a st = (Throw (decodeError error), st).
Proof.
  intros Hu Hj Hd.
  unfold verifyJWTWithCustomHeaders, getJwksUrlFromSaleorApiUrl,
    createCustomRemoteJWKSet, new_URL.
  rewrite Hu. unfold_monad. cbn. rewrite Hj. cbn. rewrite Hd. reflexivity.
Qed.

Lemma app_differs_false (claims : JWTPayload) (id : string) :
  app_differs claims id = false <-> app claims = Some id.
Proof.
  unfold app_differs. rewrite negb_false_iff, bool_decide_eq_true. tauto.
Qed.

(** What a returned claim set tells about the token. *)
Lemma verifyJWT_returns_inv (a : VerifyArgs) (st st' : State World)
    (claims : JWTPayload) :
  verifyJWTWithCustomHeaders E a st = (Return claims, st') ->
  exists u j w,
    URL_parse E (v_saleorApiUrl a) = Some u
    /\ URL_parse E (origin u +:+ "/.well-known/jwks.json") = Some j
    /\ jose_decodeJwt E (v_token a) = inr claims
    /\ jose_jwtVerify E (v_token a) j (jwksHeaders a) (world st) = (Return tt, w)
    /\ app claims = Some (v_appId a)
    /\ st' = afterVerify a j st w.
Proof.
  intros H.
  destruct (URL_parse E (v_saleorApiUrl a)) as [u|] eqn:Hu;
    [|rewrite verifyJWT_bad_url in H by assumption; discriminate].
  destruct (URL_parse E (origin u +:+ "/.well-known/jwks.json")) as [j|] eqn:Hj;
    [|rewrite (verifyJWT_bad_jwks_url a st u) in H by assumption; discriminate].
  destruct (jose_decodeJwt E (v_token a)) as [err|decoded] eqn:Hd;
    [rewrite (verifyJWT_undecodable a st u j err) in H by assumption;
     discriminate|].
  rewrite (verifyJWT_steps E a st u j decoded Hu Hj Hd) in H.
  destruct (jose_jwtVerify E (v_token a) j (jwksHeaders a) (world st))
    as [[[]|e] w] eqn:Hv; [|discriminate].
  destruct (app_differs decoded (v_appId a)) eqn:Happ; [discriminate|].
  injection H as -> <-. apply app_differs_false in Happ.
  exists u, j, w. repeat split; assumption.
Qed.

(** X1: the verifier returns a claim set exactly when the tenant URL and the
    key-set URL derived from it are well-formed, the token decodes to that
    claim set, [jose.jwtVerify] accepts the token against that key set with
    the dashboard headers, and the [app] claim is the expected app id; the
    claim set is the decoded one, unchanged. *)
Theorem verifyJWT_returns_iff (a : VerifyArgs) (st st' : State World)
    (claims : JWTPayload) :
  verifyJWTWithCustomHeaders E a st = (Return claims, st')
  <->
  exists u j w,
    URL_parse E (v_saleorApiUrl a) = Some u
    /\ URL_parse E (origin u +:+ "/.well-known/jwks.json") = Some j
    /\ jose_decodeJwt E (v_token a) = inr claims
    /\ jose_jwtVerify E (v_token a) j (jwksHeaders a) (world st) = (Return tt, w)
    /\ app claims = Some (v_appId a)
    /\ st' = afterVerify a j st w.
Proof.
  split; [apply verifyJWT_returns_inv|].
  intros (u & j & w & Hu & Hj & Hd & Hv & Happ & ->).
  rewrite (verifyJWT_steps E a st u j claims Hu Hj Hd), Hv.
  apply app_differs_false in Happ. now rewrite Happ.
Qed.

(** X2: a token that does not decode is rejected with the decode error
    before [jose.jwtVerify] is called: the state is the one the verifier
    started in. *)
Theorem verifyJWT_malformed_before_key_set (a : VerifyArgs) (st : State World)
    (u j : URL) (error : JsError) :
  URL_parse E (v_saleorApiUrl a) = Some u ->
  URL_parse E (origin u +:+ "/.well-known/jwks.json") = Some j ->
  jose_decodeJwt E (v_token a) = inl error ->
  verifyJWTWithCustomHeaders E a st
  = (Throw (Error ("JWT verification failed: Could not decode token: "
                   +:+ message error)), st).
Proof. apply verifyJWT_undecodable. Qed.

(** X3: an ill-formed tenant API URL makes the verifier throw the
    [TypeError] of [new URL] before the token is looked at, whatever the
    token is. *)
Theorem verifyJWT_invalid_tenant_url (a : VerifyArgs) (st : State World) :
  URL_parse E (v_saleorApiUrl a) = None ->
  forall token',
    verifyJWTWithCustomHeaders E
      (mkVerifyArgs (v_saleorApiUrl a) token' (v_appId a)
                    (v_requiredPermissions a) (v_dashboardUrl a)) st
    = (Throw (TypeError "Invalid URL"), st).
Proof. intros Hu token'. now apply verifyJWT_bad_url. Qed.

(** What the verifier leaves in the trace: nothing, or the one call of
    [jose.jwtVerify]. *)
Lemma verifyJWT_trace (a : VerifyArgs) (st : State World) :
  snd (verifyJWTWithCustomHeaders E a st) = st
  \/ exists j w, snd (verifyJWTWithCustomHeaders E a st) = afterVerify a j st w.
Proof.
  destruct (URL_parse E (v_saleorApiUrl a)) as [u|] eqn:Hu;
    [|left; now rewrite verifyJWT_bad_url].
  destruct (URL_parse E (origin u +:+ "/.well-known/jwks.json")) as [j|] eqn:Hj;
    [|left; now rewrite (verifyJWT_bad_jwks_url a st u)].
  destruct (jose_decodeJwt E (v_token a)) as [err|decoded] eqn:Hd;
    [left; now rewrite (verifyJWT_undecodable a st u j err)|].
  right. rewrite (verifyJWT_steps E a st u j decoded Hu Hj Hd).
  destruct (jose_jwtVerify E (v_token a) j (jwksHeaders a) (world st))
    as [[[]|e] w]; [destruct (app_differs decoded (v_appId a))|];
    exists j, w; reflexivity.
Qed.

(** X4: the key-set fetch returns a response exactly when [fetch] returned
    it with a success status; the response is handed on unchanged. *)
Theorem fetchWithHeaders_returns_iff (headers : Headers) (input : string)
    (init : option RequestInit) (st : State World) (response : Response) :
  fst (fetchWithHeaders E headers input init st) = Return response
  <->
  fst (fetch E input (default (mkRequestInit headers) init) (world st))
    = Return response
  /\ ok response = true.
Proof.
  unfold fetchWithHeaders. unfold_monad.
  destruct (fetch E input (default (mkRequestInit headers) init) (world st))
    as [[r|e] w]; cbn.
  - destruct (ok r) eqn:Hok; cbn.
    + split; [intros [= ->]; now split | now intros [[= ->] _]].
    + split; [discriminate | intros [[= ->] Hr]; congruence].
  - split; [discriminate | intros [[=] _]].
Qed.

End VerifierMore.

(** X1, witness: the token the tenant signed for this app. *)
Lemma verifyJWT_returns_iff_witness :
  verifyJWTWithCustomHeaders (Demo.env false) (Demo.args "jwt-staff" [])
    (Demo.installed 5)
  = (Return (mkJWTPayload (Some "app-1") []),
     afterVerify (Demo.args "jwt-staff" [])
       (mkURL Demo.jwksEndpoint "https://tenant.example") (Demo.installed 5)
       (world (Demo.installed 5))).
Proof.
  apply (proj2 (verifyJWT_returns_iff (Demo.env false) (Demo.args "jwt-staff" [])
                  (Demo.installed 5) _ _)).
  exists (mkURL "https://tenant.example/graphql/" "https://tenant.example"),
         (mkURL Demo.jwksEndpoint "https://tenant.example"),
         (world (Demo.installed 5)).
  repeat split.
Defined.

(** X2, witness. *)
Lemma verifyJWT_malformed_before_key_set_witness :
  verifyJWTWithCustomHeaders (Demo.env false) (Demo.args "not-a-jwt" [])
    (Demo.installed 5)
  = (Throw (Error "JWT verification failed: Could not decode token: Invalid JWT"),
     Demo.installed 5).
Proof.
  exact (verifyJWT_malformed_before_key_set (Demo.env false)
           (Demo.args "not-a-jwt" []) (Demo.installed 5)
           (mkURL "https://tenant.example/graphql/" "https://tenant.example")
           (mkURL Demo.jwksEndpoint "https://tenant.example")
           (Error "Invalid JWT") eq_refl eq_refl eq_refl).
Defined.

(** X3, witness: a tenant URL without a scheme, with a valid token. *)
Lemma verifyJWT_invalid_tenant_url_witness :
  verifyJWTWithCustomHeaders (Demo.env false)
    (mkVerifyArgs "tenant.example/graphql/" "jwt-staff" "app-1" []
                  "dashboard.example")
    (Demo.installed 5)
  = (Throw (TypeError "Invalid URL"), Demo.installed 5).
Proof.
  exact (verifyJWT_invalid_tenant_url (Demo.env false)
           (mkVerifyArgs "tenant.example/graphql/" "not-a-jwt" "app-1" []
                         "dashboard.example")
           (Demo.installed 5) eq_refl "jwt-staff").
Defined.

(** X4, witness: an endpoint that answers 200. *)
Lemma fetchWithHeaders_returns_iff_witness :
  fst (fetchWithHeaders Demo2.okEnv [] Demo.jwksEndpoint None (Demo.installed 5))
  = Return (mkResponse true "OK").
Proof.
  apply (proj2 (fetchWithHeaders_returns_iff Demo2.okEnv [] Demo.jwksEndpoint
                  None (Demo.installed 5) (mkResponse true "OK"))).
  split; reflexivity.
Defined.

(** * Further properties of the middleware chain *)

Lemma or_empty_Some (s : string) : or_empty (Some s) = s.
Proof.
  unfold or_empty. cbn. destruct (String.eqb_spec s ""); cbn; congruence.
Qed.

Lemma mergeCtx_idem (c : Ctx) : mergeCtx c c = c.
Proof.
  destruct c as [t u a s b at' d cl sc ff]. unfold mergeCtx. cbn.
  destruct t, u, a, s, b, at', d, cl, sc, ff; reflexivity.
Qed.

Lemma syncCalls_app (l1 l2 : list Event) :
  syncCalls (l1 ++ l2) = syncCalls l1 + syncCalls l2.
Proof. unfold syncCalls. now rewrite List.filter_app, length_app. Qed.

Section ChainMore.
Context {World : Type} (E : Env World).

Lemma storedDashboardUrl_steps (ctx : Ctx) (st : State World) :
  storedDashboardUrl E ctx st =
    match apl_get E (or_empty (appId ctx)) (world st) with
    | (Return (Some authData), w) =>
        (Return (ad_dashboardUrl authData), afterLookup ctx st w)
    | (Return None, w) => (Throw undefinedDashboardUrl, afterLookup ctx st w)
    | (Throw e, w) => (Throw e, afterLookup ctx st w)
    end.
Proof.
  unfold storedDashboardUrl, afterLookup. unfold_monad.
  destruct (apl_get E (or_empty (appId ctx)) (world st)) as [[[ad|]|e] w];
    reflexivity.
Qed.

Lemma attachAppToken_steps {R} (ctx : Ctx) (next : Ctx -> M World R)
    (st : State World) :
  attachAppToken E ctx next st =
    if truthy_str (saleorApiUrl ctx) then
      match apl_get E (or_empty (appId ctx)) (world st) with
      | (Return (Some authData), w) =>
          next (identityCtx authData) (afterLookup ctx st w)
      | (Return None, w) => (Throw missingAuthData, afterLookup ctx st w)
      | (Throw e, w) => (Throw e, afterLookup ctx st w)
      end
    else (Throw missingRequestUrl, st).
Proof.
  unfold attachAppToken, afterLookup.
  destruct (truthy_str (saleorApiUrl ctx)); cbn; [|reflexivity].
  unfold_monad.
  destruct (apl_get E (or_empty (appId ctx)) (world st)) as [[[ad|]|e] w];
    reflexivity.
Qed.

Lemma validate_steps {R} (ctx : Ctx) (meta : option Meta)
    (next : Ctx -> M World R) (st : State World) :
  validateClientToken E ctx meta next st =
    if negb (truthy_str (token ctx)) then (Throw missingToken, st)
    else if negb (truthy_str (appId ctx)) then (Throw missingAppId, st)
    else if negb (truthy_str (saleorApiUrl ctx))
    then (Throw missingSaleorApiUrl, st)
    else if truthy_bool (ssr ctx) then next ctx st
    else match verifyClientToken E ctx meta st with
         | (Return _, st') => next ctx st'
         | (Throw _, st') => (Throw jwtVerificationFailed, st')
         end.
Proof.
  destruct (truthy_str (token ctx)) eqn:Ht; cbn;
    [|unfold validateClientToken; now rewrite Ht].
  destruct (truthy_str (appId ctx)) eqn:Ha; cbn;
    [|unfold validateClientToken; now rewrite Ht, Ha].
  destruct (truthy_str (saleorApiUrl ctx)) eqn:Hu; cbn;
    [|unfold validateClientToken; now rewrite Ht, Ha, Hu].
  destruct (truthy_bool (ssr ctx)) eqn:Hs.
  - now apply validate_server.
  - now apply validate_browser.
Qed.

Lemma attachApiClient_steps {R} (ctx : Ctx) (next : Ctx -> M World R)
    (st : State World) :
  attachApiClient E ctx next st =
    match storedDashboardUrl E ctx st with
    | (Return d, st') => next (clientCtx ctx d) st'
    | (Throw e, st') => (Throw e, st')
    end.
Proof.
  unfold attachApiClient. unfold_monad.
  destruct (storedDashboardUrl E ctx st) as [[d|e] st']; reflexivity.
Qed.

Lemma verifyClientToken_steps (ctx : Ctx) (meta : option Meta)
    (st : State World) :
  verifyClientToken E ctx meta st =
    match storedDashboardUrl E ctx st with
    | (Return d, st') =>
        verifyJWTWithCustomHeaders E (verifyArgsOf E ctx meta d) st'
    | (Throw e, st') => (Throw e, st')
    end.
Proof.
  unfold verifyClientToken. unfold_monad.
  destruct (storedDashboardUrl E ctx st) as [[d|e] st']; reflexivity.
Qed.

(** The chain, step by step, for an arbitrary handler. *)
Lemma chain_steps {R} (ctx : Ctx) (meta : option Meta)
    (resolver : Ctx -> M World R) (st : State World) :
  protectedClientProcedure E ctx meta resolver st =
    if truthy_str (saleorApiUrl ctx) then
      match apl_get E (or_empty (appId ctx)) (world st) with
      | (Return (Some authData), w) =>
          let c1 := mergeCtx ctx (identityCtx authData) in
          validateClientToken E c1 meta (fun _ =>
            attachApiClient E c1 (fun p3 => resolver (mergeCtx c1 p3)))
            (afterLookup ctx st w)
      | (Return None, w) => (Throw missingAuthData, afterLookup ctx st w)
      | (Throw e, w) => (Throw e, afterLookup ctx st w)
      end
    else (Throw missingRequestUrl, st).
Proof.
  unfold protectedClientProcedure. rewrite attachAppToken_steps.
  destruct (truthy_str (saleorApiUrl ctx)); [|reflexivity].
  destruct (apl_get E (or_empty (appId ctx)) (world st)) as [[[ad|]|e] w];
    try reflexivity.
  cbn zeta. rewrite !validate_steps.
  repeat (match goal with
          | |- context [if ?b then _ else _] => destruct b
          end; try reflexivity);
    try (destruct (verifyClientToken E _ meta _) as [[?|?] ?]; try reflexivity);
    now rewrite mergeCtx_idem.
Qed.

(** The handler is in tail position of the chain. *)
Lemma chain_handler_last {R} (ctx : Ctx) (meta : option Meta)
    (resolver : Ctx -> M World R) (st : State World) :
  protectedClientProcedure E ctx meta resolver st =
    match protectedClientProcedure E ctx meta mret st with
    | (Return c, st') => resolver c st'
    | (Throw e, st') => (Throw e, st')
    end.
Proof.
  rewrite !chain_steps.
  destruct (truthy_str (saleorApiUrl ctx)); [|reflexivity].
  destruct (apl_get E (or_empty (appId ctx)) (world st)) as [[[ad|]|e] w];
    try reflexivity.
  cbn zeta. rewrite !validate_steps.
  repeat (match goal with
          | |- context [if ?b then _ else _] => destruct b
          end; try reflexivity).
  - rewrite !attachApiClient_steps.
    destruct (storedDashboardUrl E _ _) as [[d|e] st']; reflexivity.
  - destruct (verifyClientToken E _ meta _) as [[?|?] st1]; [|reflexivity].
    rewrite !attachApiClient_steps.
    destruct (storedDashboardUrl E _ _) as [[d|e] st']; reflexivity.
Qed.

(** Each middleware hands its own result to [next], or throws. *)
Lemma attachAppToken_next {R} (ctx : Ctx) (next : Ctx -> M World R)
    (st : State World) :
  attachAppToken E ctx next st =
    match attachAppToken E ctx mret st with
    | (Return p, st') => next p st'
    | (Throw e, st') => (Throw e, st')
    end.
Proof.
  rewrite !attachAppToken_steps.
  destruct (truthy_str (saleorApiUrl ctx)); [|reflexivity].
  destruct (apl_get E (or_empty (appId ctx)) (world st)) as [[[ad|]|e] w];
    reflexivity.
Qed.

Lemma validateClientToken_next {R} (ctx : Ctx) (meta : option Meta)
    (next : Ctx -> M World R) (st : State World) :
  validateClientToken E ctx meta next st =
    match validateClientToken E ctx meta mret st with
    | (Return p, st') => next p st'
    | (Throw e, st') => (Throw e, st')
    end.
Proof.
  rewrite !validate_steps.
  repeat (match goal with
          | |- context [if ?b then _ else _] => destruct b
          end; try reflexivity).
  destruct (verifyClientToken E ctx meta st) as [[?|?] ?]; reflexivity.
Qed.

Lemma attachApiClient_next {R} (ctx : Ctx) (next : Ctx -> M World R)
    (st : State World) :
  attachApiClient E ctx next st =
    match attachApiClient E ctx mret st with
    | (Return p, st') => next p st'
    | (Throw e, st') => (Throw e, st')
    end.
Proof.
  rewrite !attachApiClient_steps.
  destruct (storedDashboardUrl E ctx st) as [[d|e] st']; reflexivity.
Qed.

Lemma callRecursive_eq {Data} (m : M World (MiddlewareResult Data))
    (st : State World) :
  callRecursive m st =
    match m st with
    | (Return r, st') => (Return r, st')
    | (Throw e, st') => (Return (MFailed (getTRPCErrorFromUnknown e)), st')
    end.
Proof. reflexivity. Qed.

Lemma callRecursive_idem {Data} (m : M World (MiddlewareResult Data))
    (st : State World) :
  callRecursive (callRecursive m) st = callRecursive m st.
Proof.
  rewrite !callRecursive_eq. destruct (m st) as [[r|e] st']; reflexivity.
Qed.

(** The three middlewares under the runtime, step by step. *)
Lemma callProtectedChain_stages {Data} (ctx : Ctx) (meta : option Meta)
    (rest : Ctx -> M World (MiddlewareResult Data)) (st : State World) :
  callProtectedChain E ctx meta rest st =
    match attachAppToken E ctx mret st with
    | (Throw e, st1) => (Return (MFailed (getTRPCErrorFromUnknown e)), st1)
    | (Return p1, st1) =>
        match validateClientToken E (mergeCtx ctx p1) meta mret st1 with
        | (Throw e, st2) => (Return (MFailed (getTRPCErrorFromUnknown e)), st2)
        | (Return p2, st2) =>
            match attachApiClient E (mergeCtx (mergeCtx ctx p1) p2) mret st2 with
            | (Throw e, st3) =>
                (Return (MFailed (getTRPCErrorFromUnknown e)), st3)
            | (Return p3, st3) =>
                callRecursive
                  (rest (mergeCtx (mergeCtx (mergeCtx ctx p1) p2) p3)) st3
            end
        end
    end.
Proof.
  unfold callProtectedChain.
  rewrite callRecursive_eq, attachAppToken_next.
  destruct (attachAppToken E ctx mret st) as [[p1|e1] st1]; [|reflexivity].
  cbn zeta. rewrite callRecursive_eq, validateClientToken_next.
  destruct (validateClientToken E (mergeCtx ctx p1) meta mret st1)
    as [[p2|e2] st2]; [|reflexivity].
  rewrite callRecursive_eq, attachApiClient_next.
  destruct (attachApiClient E (mergeCtx (mergeCtx ctx p1) p2) mret st2)
    as [[p3|e3] st3]; [|reflexivity].
  rewrite !callRecursive_eq.
  destruct (rest _ st3) as [[r|e] st4]; reflexivity.
Qed.

(** The same, through the direct composition of the three middlewares. *)
Lemma callProtectedChain_steps {Data} (ctx : Ctx) (meta : option Meta)
    (rest : Ctx -> M World (MiddlewareResult Data)) (st : State World) :
  callProtectedChain E ctx meta rest st =
    match protectedClientProcedure E ctx meta mret st with
    | (Return c, st') => callRecursive (rest c) st'
    | (Throw e, st') => (Return (MFailed (getTRPCErrorFromUnknown e)), st')
    end.
Proof.
  rewrite callProtectedChain_stages. unfold protectedClientProcedure.
  destruct (attachAppToken E ctx mret st) as [[p1|e1] st1] eqn:H1;
    rewrite attachAppToken_next, H1; [|reflexivity].
  cbn zeta.
  destruct (validateClientToken E (mergeCtx ctx p1) meta mret st1)
    as [[p2|e2] st2] eqn:H2;
    rewrite validateClientToken_next, H2; [|reflexivity].
  destruct (attachApiClient E (mergeCtx (mergeCtx ctx p1) p2) mret st2)
    as [[p3|e3] st3] eqn:H3;
    rewrite attachApiClient_next, H3; reflexivity.
Qed.

(** X5: a call of a protected procedure runs [attachAppToken],
    [validateClientToken] and the client-attaching middleware in this order,
    each on the context merged with what the previous one handed on.  When
    one of them throws, the later ones and the handler are not run and the
    call fails with that error as the runtime converts it (a [TRPCError] as
    it is, any other error as the cause of an [INTERNAL_SERVER_ERROR]).  When
    all three succeed, the handler runs last: its data is the result of the
    call, and an error it throws is converted in the same way. *)
Theorem procedure_call_runs_handler_last {Data} (ctx : Ctx)
    (meta : option Meta) (resolver : Ctx -> M World Data) (st : State World) :
  let call := callProtectedClientProcedure E ctx meta resolver st in
  (forall e st1,
      attachAppToken E ctx mret st = (Throw e, st1) ->
      call = (Return (MFailed (getTRPCErrorFromUnknown e)), st1))
  /\
  (forall p1 st1,
      attachAppToken E ctx mret st = (Return p1, st1) ->
      let c1 := mergeCtx ctx p1 in
      (forall e st2,
          validateClientToken E c1 meta mret st1 = (Throw e, st2) ->
          call = (Return (MFailed (getTRPCErrorFromUnknown e)), st2))
      /\
      (forall p2 st2,
          validateClientToken E c1 meta mret st1 = (Return p2, st2) ->
          let c2 := mergeCtx c1 p2 in
          (forall e st3,
              attachApiClient E c2 mret st2 = (Throw e, st3) ->
              call = (Return (MFailed (getTRPCErrorFromUnknown e)), st3))
          /\
          (forall p3 st3,
              attachApiClient E c2 mret st2 = (Return p3, st3) ->
              call =
                match resolver (mergeCtx c2 p3) st3 with
                | (Return data, st4) => (Return (MOk data), st4)
                | (Throw e, st4) =>
                    (Return (MFailed (getTRPCErrorFromUnknown e)), st4)
                end))).
Proof.
  cbn zeta. unfold callProtectedClientProcedure.
  rewrite callProtectedChain_stages.
  split; [intros e st1 H1; now rewrite H1|].
  intros p1 st1 H1. rewrite H1.
  split; [intros e st2 H2; now rewrite H2|].
  intros p2 st2 H2. rewrite H2.
  split; [intros e st3 H3; now rewrite H3|].
  intros p3 st3 H3. rewrite H3, callRecursive_idem, callRecursive_eq.
  unfold resolveMiddleware. unfold_monad.
  destruct (resolver _ st3) as [[data|e] st4]; reflexivity.
Qed.

End ChainMore.

Section ChainSuccess.
Context {World : Type} (E : Env World).

(** Everything a successful run of the three middlewares went through. *)
Lemma chain_success_inv (ctx : Ctx) (meta : option Meta) (st st' : State World)
    (c : Ctx) :
  protectedClientProcedure E ctx meta mret st = (Return c, st') ->
  exists authData w1 st2 authData3 w3,
    let c1 := mergeCtx ctx (identityCtx authData) in
    truthy_str (saleorApiUrl ctx) = true
    /\ apl_get E (or_empty (appId ctx)) (world st) = (Return (Some authData), w1)
    /\ complete c1
    /\ (if truthy_bool (ssr ctx) then st2 = afterLookup ctx st w1
        else exists claims,
            verifyClientToken E c1 meta (afterLookup ctx st w1)
            = (Return claims, st2))
    /\ apl_get E (ad_appId authData) (world st2) = (Return (Some authData3), w3)
    /\ c = mergeCtx c1 (clientCtx c1 (ad_dashboardUrl authData3))
    /\ st' = afterLookup c1 st2 w3.
Proof.
  intros H. rewrite chain_steps in H.
  destruct (truthy_str (saleorApiUrl ctx)) eqn:Hurl; [|discriminate].
  destruct (apl_get E (or_empty (appId ctx)) (world st)) as [[[ad|]|e] w1] eqn:Hget;
    try discriminate.
  cbn zeta in H. rewrite validate_steps in H.
  remember (mergeCtx ctx (identityCtx ad)) as c1 eqn:Hc1.
  assert (Hssr : ssr c1 = ssr ctx) by (subst c1; reflexivity).
  assert (Happ : appId c1 = Some (ad_appId ad)) by (subst c1; reflexivity).
  destruct (truthy_str (token c1)) eqn:Ht; [|discriminate].
  destruct (truthy_str (appId c1)) eqn:Ha; [|discriminate].
  destruct (truthy_str (saleorApiUrl c1)) eqn:Hu; [|discriminate].
  cbn [negb] in H. rewrite Hssr in H.
  assert (Hfinish : forall st2,
             attachApiClient E c1 (fun p3 => mret (mergeCtx c1 p3)) st2
             = (Return c, st') ->
             exists ad3 w3,
               apl_get E (ad_appId ad) (world st2) = (Return (Some ad3), w3)
               /\ c = mergeCtx c1 (clientCtx c1 (ad_dashboardUrl ad3))
               /\ st' = afterLookup c1 st2 w3).
  { intros st2 H3. rewrite attachApiClient_steps, storedDashboardUrl_steps in H3.
    rewrite Happ, or_empty_Some in H3.
    destruct (apl_get E (ad_appId ad) (world st2)) as [[[ad3|]|e3] w3];
      try discriminate.
    injection H3 as <- <-. now exists ad3, w3. }
  destruct (truthy_bool (ssr ctx)) eqn:Hs.
  - destruct (Hfinish _ H) as (ad3 & w3 & H3 & -> & ->).
    exists ad, w1, (afterLookup ctx st w1), ad3, w3. cbn zeta.
    rewrite <- Hc1. repeat split; assumption.
  - destruct (verifyClientToken E c1 meta (afterLookup ctx st w1))
      as [[claims|e] st2] eqn:Hv; [|discriminate].
    destruct (Hfinish _ H) as (ad3 & w3 & H3 & -> & ->).
    exists ad, w1, st2, ad3, w3. cbn zeta.
    rewrite <- Hc1. repeat split; try assumption. now exists claims.
Qed.


(** X6: when the three middlewares succeed, the handler's context carries
    the tenant URL, the app id and the app token of the stored record found
    under the request's app id (not the values the request came with), the
    request's own bearer token, and an API client bound to the stored URL
    and token. *)
Theorem protectedClientProcedure_identity_from_store (ctx : Ctx)
    (meta : option Meta) (st st' : State World) (c : Ctx) :
  protectedClientProcedure E ctx meta mret st = (Return c, st') ->
  exists authData w,
    apl_get E (or_empty (appId ctx)) (world st) = (Return (Some authData), w)
    /\ token c = token ctx
    /\ saleorApiUrl c = Some (ad_saleorApiUrl authData)
    /\ appId c = Some (ad_appId authData)
    /\ appToken c = Some (ad_token authData)
    /\ exists client,
        apiClient c = Some client
        /\ client_saleorApiUrl client = Some (ad_saleorApiUrl authData)
        /\ client_token client = Some (ad_token authData).
Proof.
  intros H.
  destruct (chain_success_inv _ _ _ _ _ H)
    as (ad & w1 & st2 & ad3 & w3 & _ & Hget & _ & _ & _ & -> & _).
  exists ad, w1. split; [assumption|].
  repeat split. eexists. repeat split.
Qed.


(** A successful verification inside [validateClientToken], with the key
    set and the headers it was made with. *)
Lemma verifyClientToken_returns_full (ctx : Ctx) (meta : option Meta)
    (st st' : State World) (claims : JWTPayload) :
  verifyClientToken E ctx meta st = (Return claims, st') ->
  exists authData w2 u j w,
    let a := verifyArgsOf E ctx meta (ad_dashboardUrl authData) in
    apl_get E (or_empty (appId ctx)) (world st) = (Return (Some authData), w2)
    /\ URL_parse E (v_saleorApiUrl a) = Some u
    /\ URL_parse E (origin u +:+ "/.well-known/jwks.json") = Some j
    /\ jose_decodeJwt E (v_token a) = inr claims
    /\ jose_jwtVerify E (v_token a) j (jwksHeaders a) w2 = (Return tt, w)
    /\ app claims = Some (v_appId a)
    /\ st' = afterVerify a j (afterLookup ctx st w2) w.
Proof.
  intros H. rewrite verifyClientToken_steps, storedDashboardUrl_steps in H.
  destruct (apl_get E (or_empty (appId ctx)) (world st)) as [[[ad|]|e] w2];
    try discriminate.
  apply verifyJWT_returns_inv in H as (u & j & w & Hu & Hj & Hd & Hv & Ha & ->).
  exists ad, w2, u, j, w. cbn zeta. repeat split; assumption.
Qed.

(** X8: a browser-originated request reaches the handler only if, during
    that request, its bearer token decoded and [jose.jwtVerify] accepted it
    against the key set of the stored tenant: the key-set URL is derived from
    the [saleorApiUrl] of the record stored under the request's app id (not
    from the request), the headers carry the [dashboardUrl] of the record
    found by the second lookup, the call is made in the world the two
    lookups left and is recorded in the request's trace, and the [app] claim
    is the stored app id, which is the one the handler sees. *)
Theorem browser_handler_implies_verified_token (ctx : Ctx) (meta : option Meta)
    (st st' : State World) (c : Ctx) :
  truthy_bool (ssr ctx) = false ->
  protectedClientProcedure E ctx meta mret st = (Return c, st') ->
  exists t claims authData w1 authData2 w2 u j w,
    token ctx = Some t
    /\ apl_get E (or_empty (appId ctx)) (world st) = (Return (Some authData), w1)
    /\ apl_get E (ad_appId authData) w1 = (Return (Some authData2), w2)
    /\ URL_parse E (ad_saleorApiUrl authData) = Some u
    /\ URL_parse E (origin u +:+ "/.well-known/jwks.json") = Some j
    /\ jose_decodeJwt E t = inr claims
    /\ jose_jwtVerify E t j
         [("Origin", "https://" +:+ ad_dashboardUrl authData2);
          ("Referer", "https://" +:+ ad_dashboardUrl authData2)]
         w2 = (Return tt, w)
    /\ app claims = Some (ad_appId authData)
    /\ appId c = Some (ad_appId authData)
    /\ In (EvJwtVerify t (href j)) (trace st').
Proof.
  intros Hs H.
  destruct (chain_success_inv _ _ _ _ _ H)
    as (ad & w1 & st2 & ad3 & w3 & _ & Hget & (Ht & _ & _) & Hmid & _ & -> & ->).
  cbn zeta in *. rewrite Hs in Hmid. destruct Hmid as (claims & Hv).
  apply verifyClientToken_returns_full in Hv
    as (ad2 & w2 & u & j & w & Hget2 & Hu & Hj & Hd & Hjv & Ha & ->).
  cbn in Ht, Hget2, Hu, Hd, Hjv, Ha. rewrite or_empty_Some in Hget2.
  destruct (token ctx) as [t|] eqn:Htok; [|discriminate].
  cbn in Hd, Hjv.
  exists t, claims, ad, w1, ad2, w2, u, j, w.
  repeat split; try assumption.
  cbn. rewrite Htok, !in_app_iff. left. right. now left.
Qed.

(** X9: a request without a tenant URL is rejected with [BAD_REQUEST]
    before the store is consulted, and a request whose app id has no stored
    record is rejected with [UNAUTHORIZED]; in both cases the handler is not
    run. *)
Theorem protectedClientProcedure_unauthenticated {R} (ctx : Ctx)
    (meta : option Meta) (resolver : Ctx -> M World R) (st : State World) :
  (truthy_str (saleorApiUrl ctx) = false ->
     protectedClientProcedure E ctx meta resolver st
     = (Throw (TRPCError "BAD_REQUEST" "Missing saleorApiUrl in request"), st))
  /\
  (truthy_str (saleorApiUrl ctx) = true ->
     forall w,
       apl_get E (or_empty (appId ctx)) (world st) = (Return None, w) ->
       protectedClientProcedure E ctx meta resolver st
       = (Throw (TRPCError "UNAUTHORIZED" "Missing auth data"),
          afterLookup ctx st w)).
Proof.
  split.
  - intros Hu. now rewrite chain_steps, Hu.
  - intros Hu w Hget. now rewrite chain_steps, Hu, Hget.
Qed.

End ChainSuccess.

(** The run used by the witnesses below. *)
Lemma spoofed_request_run :
  protectedClientProcedure (Demo.env false) Demo2.spoofedCtx Demo.reading mret
    (Demo.installed 5)
  = (Return Demo2.handlerCtx, Demo2.handlerState).
Proof. reflexivity. Qed.

(** X5, witness: a forged token stops the call at the second middleware,
    with the middleware's error as cause; a token the tenant signed lets the
    handler run on the context of the three middlewares. *)
Lemma procedure_call_runs_handler_last_witness :
  fst (callProtectedClientProcedure (Demo.env false)
         (Demo.browserCtx "jwt-forged") Demo.reading Demo.echo
         (Demo.installed 5))
  = Return (MFailed (mkTRPCFailure "INTERNAL_SERVER_ERROR"
                       "JWT verification failed: "
                       (Some jwtVerificationFailed)))
  /\ fst (callProtectedClientProcedure (Demo.env false) Demo2.spoofedCtx
            Demo.reading Demo.echo (Demo.installed 5))
     = Return (MOk Demo2.handlerCtx).
Proof.
  pose (store := ({[ "app-1" := Demo.tenant ]} : gmap string AuthData)).
  pose (st1 := mkState (Demo.mkWorld store 4) [EvAplGet "app-1"]).
  split.
  - pose proof (procedure_call_runs_handler_last (Demo.env false)
                  (Demo.browserCtx "jwt-forged") Demo.reading Demo.echo
                  (Demo.installed 5)) as H.
    cbn zeta in H. destruct H as [_ H].
    destruct (H (identityCtx Demo.tenant) st1 eq_refl) as [Hstop _].
    rewrite (Hstop jwtVerificationFailed
               (mkState (Demo.mkWorld store 3)
                        [EvAplGet "app-1"; EvAplGet "app-1";
                         EvJwtVerify "jwt-forged" Demo.jwksEndpoint])
               eq_refl).
    reflexivity.
  - pose proof (procedure_call_runs_handler_last (Demo.env false)
                  Demo2.spoofedCtx Demo.reading Demo.echo
                  (Demo.installed 5)) as H.
    cbn zeta in H. destruct H as [_ H].
    pose (c1 := mergeCtx Demo2.spoofedCtx (identityCtx Demo.tenant)).
    destruct (H (identityCtx Demo.tenant) st1 eq_refl) as [_ H2].
    destruct (H2 c1
                (mkState (Demo.mkWorld store 3)
                         [EvAplGet "app-1"; EvAplGet "app-1";
                          EvJwtVerify "jwt-staff" Demo.jwksEndpoint])
                eq_refl) as [_ H3].
    rewrite (H3 (clientCtx (mergeCtx c1 c1) "dashboard.example")
                Demo2.handlerState eq_refl).
    reflexivity.
Defined.

(** X6, witness: the request names another tenant's URL; the handler sees
    the stored one. *)
Lemma protectedClientProcedure_identity_from_store_witness :
  exists authData w,
    apl_get (Demo.env false) (or_empty (appId Demo2.spoofedCtx))
            (world (Demo.installed 5)) = (Return (Some authData), w)
    /\ token Demo2.handlerCtx = token Demo2.spoofedCtx
    /\ saleorApiUrl Demo2.handlerCtx = Some (ad_saleorApiUrl authData)
    /\ appId Demo2.handlerCtx = Some (ad_appId authData)
    /\ appToken Demo2.handlerCtx = Some (ad_token authData)
    /\ exists client,
        apiClient Demo2.handlerCtx = Some client
        /\ client_saleorApiUrl client = Some (ad_saleorApiUrl authData)
        /\ client_token client = Some (ad_token authData).
Proof.
  exact (protectedClientProcedure_identity_from_store (Demo.env false)
           Demo2.spoofedCtx Demo.reading (Demo.installed 5) Demo2.handlerState
           Demo2.handlerCtx eq_refl).
Defined.


(** X8, witness. *)
Lemma browser_handler_implies_verified_token_witness :
  exists t claims authData w1 authData2 w2 u j w,
    token Demo2.spoofedCtx = Some t
    /\ apl_get (Demo.env false) (or_empty (appId Demo2.spoofedCtx))
               (world (Demo.installed 5)) = (Return (Some authData), w1)
    /\ apl_get (Demo.env false) (ad_appId authData) w1
       = (Return (Some authData2), w2)
    /\ URL_parse (Demo.env false) (ad_saleorApiUrl authData) = Some u
    /\ URL_parse (Demo.env false) (origin u +:+ "/.well-known/jwks.json") = Some j
    /\ jose_decodeJwt (Demo.env false) t = inr claims
    /\ jose_jwtVerify (Demo.env false) t j
         [("Origin", "https://" +:+ ad_dashboardUrl authData2);
          ("Referer", "https://" +:+ ad_dashboardUrl authData2)]
         w2 = (Return tt, w)
    /\ app claims = Some (ad_appId authData)
    /\ appId Demo2.handlerCtx = Some (ad_appId authData)
    /\ In (EvJwtVerify t (href j)) (trace Demo2.handlerState).
Proof.
  exact (browser_handler_implies_verified_token (Demo.env false)
           Demo2.spoofedCtx Demo.reading (Demo.installed 5) Demo2.handlerState
           Demo2.handlerCtx eq_refl eq_refl).
Defined.

(** X9, witness: no tenant URL in the request, and nothing installed. *)
Lemma protectedClientProcedure_unauthenticated_witness :
  fst (protectedClientProcedure (Demo.env false) Demo2.anonymousCtx
         Demo.reading Demo.echo (Demo.installed 5))
  = Throw (TRPCError "BAD_REQUEST" "Missing saleorApiUrl in request")
  /\ protectedClientProcedure (Demo.env false) (Demo.browserCtx "jwt-staff")
       Demo.reading Demo.echo (Demo2.empty 5)
     = (Throw (TRPCError "UNAUTHORIZED" "Missing auth data"),
        afterLookup (Demo.browserCtx "jwt-staff") (Demo2.empty 5)
                    (Demo.mkWorld ∅ 4)).
Proof.
  split.
  - rewrite (proj1 (protectedClientProcedure_unauthenticated (Demo.env false)
                      Demo2.anonymousCtx Demo.reading Demo.echo
                      (Demo.installed 5)) eq_refl).
    reflexivity.
  - exact (proj2 (protectedClientProcedure_unauthenticated (Demo.env false)
                    (Demo.browserCtx "jwt-staff") Demo.reading Demo.echo
                    (Demo2.empty 5)) eq_refl _ eq_refl).
Defined.

(** * Reconciliation across the whole procedure *)

Section Quiet.
Context {World : Type}.

Lemma quiet_mret {A} (a : A) : quiet (mret a : M World A).
Proof. intros st. exists []. now rewrite app_nil_r. Qed.

Lemma quiet_throw {A} (e : JsError) : quiet (throw e : M World A).
Proof. intros st. exists []. now rewrite app_nil_r. Qed.

Lemma quiet_bind {A B} (c : M World A) (f : A -> M World B) :
  quiet c -> (forall a, quiet (f a)) -> quiet (c ≫= f).
Proof.
  intros Hc Hf st. destruct (Hc st) as (l1 & H1 & Hq1).
  unfold_monad. destruct (c st) as [[a|e] st1]; cbn in H1.
  - destruct (Hf a st1) as (l2 & H2 & Hq2).
    exists (l1 ++ l2). split; [now rewrite H2, H1, app_assoc|].
    rewrite syncCalls_app. lia.
  - now exists l1.
Qed.

Lemma quiet_try_catch {A} (c : M World A) (h : JsError -> M World A) :
  quiet c -> (forall e, quiet (h e)) -> quiet (try_catch c h).
Proof.
  intros Hc Hh st. destruct (Hc st) as (l1 & H1 & Hq1).
  unfold try_catch. destruct (c st) as [[a|e] st1]; cbn in H1.
  - now exists l1.
  - destruct (Hh e st1) as (l2 & H2 & Hq2).
    exists (l1 ++ l2). split; [now rewrite H2, H1, app_assoc|].
    rewrite syncCalls_app. lia.
Qed.

Lemma quiet_call {A} (ev : Event) (f : World -> Outcome A * World) :
  isSync ev = false -> quiet (call ev f).
Proof.
  intros Hev st. unfold call. destruct (f (world st)) as [r w]. cbn.
  exists [ev]. split; [reflexivity|]. unfold syncCalls. cbn. now rewrite Hev.
Qed.

(** A quiet computation leaves the number of reconciliation calls as it
    was. *)
Lemma quiet_syncCalls {A} (c : M World A) (st : State World) :
  quiet c -> syncCalls (trace (snd (c st))) = syncCalls (trace st).
Proof.
  intros Hc. destruct (Hc st) as (l & -> & Hq). rewrite syncCalls_app. lia.
Qed.

End Quiet.

Ltac quiet_step :=
  first
    [ apply quiet_mret
    | apply quiet_throw
    | apply quiet_call; reflexivity
    | apply quiet_bind; [|intros]
    | apply quiet_try_catch; [|intros]
    | match goal with
      | |- quiet (match ?x with _ => _ end) => destruct x
      | |- quiet (if ?b then _ else _) => destruct b
      end ].

Section QuietChain.
Context {World : Type} (E : Env World).

Lemma quiet_verifyJWT (a : VerifyArgs) : quiet (verifyJWTWithCustomHeaders E a).
Proof.
  unfold verifyJWTWithCustomHeaders, getJwksUrlFromSaleorApiUrl,
    createCustomRemoteJWKSet, new_URL.
  repeat quiet_step.
Qed.

Lemma quiet_storedDashboardUrl (ctx : Ctx) : quiet (storedDashboardUrl E ctx).
Proof. unfold storedDashboardUrl. repeat quiet_step. Qed.

Lemma quiet_chain {R} (ctx : Ctx) (meta : option Meta)
    (resolver : Ctx -> M World R) :
  (forall c, quiet (resolver c)) ->
  quiet (protectedClientProcedure E ctx meta resolver).
Proof.
  intros Hr.
  unfold protectedClientProcedure, attachAppToken, validateClientToken,
    attachApiClient, verifyClientToken.
  repeat first [ apply quiet_storedDashboardUrl
               | apply quiet_verifyJWT
               | apply Hr
               | quiet_step ].
Qed.

Lemma quiet_services_unflagged {R} (ctx : Ctx) (meta : option Meta)
    (next : Ctx -> M World R) :
  truthy_bool (meta ≫= updateWebhooks) = false ->
  (forall c, quiet (next c)) ->
  quiet (protectedWithConfigurationServices E ctx meta next).
Proof.
  intros Hflag Hn. unfold protectedWithConfigurationServices. rewrite Hflag.
  repeat first [ apply Hn | quiet_step ].
Qed.

(** X10: a procedure whose [meta] does not set [updateWebhooks] never calls
    [syncWebhookStatus], whatever the request and however the middlewares
    end, as long as the handler itself does not call it. *)
Theorem configurationProcedure_read_never_reconciles {R} (ctx : Ctx)
    (meta : option Meta) (resolver : Ctx -> M World R) (st : State World) :
  truthy_bool (meta ≫= updateWebhooks) = false ->
  (forall c, quiet (resolver c)) ->
  syncCalls (trace (snd (configurationProcedure E ctx meta resolver st)))
  = syncCalls (trace st).
Proof.
  intros Hflag Hr. apply quiet_syncCalls. unfold configurationProcedure.
  apply quiet_chain. intros c. apply quiet_services_unflagged; [assumption|].
  intros p. apply Hr.
Qed.

(** X11: when one of the three authentication middlewares throws, a call
    of the procedure with configuration services ends with that error as
    the runtime converts it (a [TRPCError] as it is, any other error as the
    cause of an [INTERNAL_SERVER_ERROR]), in the state the middlewares left:
    the handler is not run and [syncWebhookStatus] is not called, whether or
    not [updateWebhooks] is set. *)
Theorem configurationProcedure_no_reconciliation_without_auth {R} (ctx : Ctx)
    (meta : option Meta) (resolver : Ctx -> M World R) (st st' : State World)
    (e : JsError) :
  protectedClientProcedure E ctx meta mret st = (Throw e, st') ->
  callConfigurationProcedure E ctx meta resolver st
  = (Return (MFailed (getTRPCErrorFromUnknown e)), st')
  /\ syncCalls (trace st') = syncCalls (trace st).
Proof.
  intros H. split.
  - unfold callConfigurationProcedure.
    rewrite callProtectedChain_steps, H. reflexivity.
  - change st' with (snd (Throw (A:=Ctx) e, st')). rewrite <- H.
    apply quiet_syncCalls, quiet_chain. intros c. apply quiet_mret.
Qed.

(** X12: when a procedure with [updateWebhooks] set returns a result,
    [syncWebhookStatus] was called exactly once during the request, as the
    last call of the request, provided the handler does not call it. *)
Theorem configurationProcedure_mutation_reconciles_once {R} (ctx : Ctx)
    (meta : option Meta) (resolver : Ctx -> M World R) (st st' : State World)
    (result : R) :
  truthy_bool (meta ≫= updateWebhooks) = true ->
  (forall c, quiet (resolver c)) ->
  configurationProcedure E ctx meta resolver st = (Return result, st') ->
  syncCalls (trace st') = S (syncCalls (trace st))
  /\ exists t args, trace st' = t ++ [EvSyncWebhookStatus args].
Proof.
  intros Hflag Hr H. unfold configurationProcedure in H.
  rewrite chain_handler_last in H.
  destruct (protectedClientProcedure E ctx meta mret st) as [[c|e0] st1] eqn:Hc;
    [|discriminate].
  assert (H1 : syncCalls (trace st1) = syncCalls (trace st)).
  { change st1 with (snd (Return c, st1)). rewrite <- Hc.
    apply quiet_syncCalls, quiet_chain. intros c'. apply quiet_mret. }
  destruct (resolver (mergeCtx c (servicesCtx c)) st1) as [[r|e1] st2] eqn:Hn.
  - assert (H2 : syncCalls (trace st2) = syncCalls (trace st1)).
    { change st2 with (snd (Return r, st2)). rewrite <- Hn.
      apply quiet_syncCalls, Hr. }
    rewrite (services_flagged E c meta _ st1 r st2 Hflag Hn) in H.
    injection H as _ <-. cbn [trace]. split.
    + rewrite syncCalls_snoc. lia.
    + now eexists _, _.
  - rewrite (services_next_throws E c meta _ st1 e1 st2 Hn) in H. discriminate.
Qed.

End QuietChain.

Lemma echo_quiet (c : Ctx) : quiet (Demo.echo c).
Proof. apply quiet_mret. Qed.

(** X10, witness: a read procedure, with a reconciliation that would fail. *)
Lemma configurationProcedure_read_never_reconciles_witness :
  syncCalls (trace (snd (configurationProcedure (Demo.env true)
      (Demo.browserCtx "jwt-staff") Demo.reading Demo.echo (Demo.installed 5))))
  = 0.
Proof.
  rewrite (configurationProcedure_read_never_reconciles (Demo.env true)
             (Demo.browserCtx "jwt-staff") Demo.reading Demo.echo
             (Demo.installed 5) eq_refl echo_quiet).
  reflexivity.
Defined.

(** X11, witness: a forged token on a mutating procedure. *)
Lemma configurationProcedure_no_reconciliation_without_auth_witness :
  let st' := snd (protectedClientProcedure (Demo.env false)
                    (Demo.browserCtx "jwt-forged") Demo.mutating mret
                    (Demo.installed 5)) in
  callConfigurationProcedure (Demo.env false) (Demo.browserCtx "jwt-forged")
    Demo.mutating Demo.echo (Demo.installed 5)
  = (Return (MFailed (mkTRPCFailure "INTERNAL_SERVER_ERROR"
                        "JWT verification failed: "
                        (Some jwtVerificationFailed))),
     st')
  /\ syncCalls (trace st') = syncCalls (trace (Demo.installed 5)).
Proof.
  exact (configurationProcedure_no_reconciliation_without_auth (Demo.env false)
           (Demo.browserCtx "jwt-forged") Demo.mutating Demo.echo
           (Demo.installed 5) _ jwtVerificationFailed eq_refl).
Defined.

(** X12, witness: a verified request on a mutating procedure. *)
Lemma configurationProcedure_mutation_reconciles_once_witness :
  let r := configurationProcedure (Demo.env false) (Demo.browserCtx "jwt-staff")
             Demo.mutating Demo.echo (Demo.installed 5) in
  syncCalls (trace (snd r)) = 1.
Proof.
  cbn zeta.
  destruct (configurationProcedure_mutation_reconciles_once (Demo.env false)
              (Demo.browserCtx "jwt-staff") Demo.mutating Demo.echo
              (Demo.installed 5)
              (snd (configurationProcedure (Demo.env false)
                      (Demo.browserCtx "jwt-staff") Demo.mutating Demo.echo
                      (Demo.installed 5)))
              (mergeCtx Demo2.handlerCtx (servicesCtx Demo2.handlerCtx))
              eq_refl echo_quiet eq_refl) as [Hcount _].
  rewrite Hcount. reflexivity.
Defined.

(** * The installation hooks *)

Module RegisterFacts.
Import Register.

Lemma received_nil url options : received [] url options = options.
Proof. reflexivity. Qed.

(** The wrappers hand the call on exactly once, with the URL unchanged. *)
Lemma afterRequests_received {A} (requests : list (option string))
    (native : string -> option FetchOptions -> A) url options :
  afterRequests requests native url options
  = native url (received requests url options).
Proof.
  unfold received, afterRequests. revert A native.
  induction requests as [|d rest IH]; intros A native; [reflexivity|].
  cbn [fold_left].
  rewrite (IH A (onRequestStart d native)).
  rewrite (IH _ (onRequestStart d (fun _ o => o))).
  reflexivity.
Qed.

(** The earliest request's wrapper is the last one to touch the options. *)
Lemma received_cons d rest url options :
  received (d :: rest) url options
  = patchedFetch d (fun _ o => o) url (received rest url options).
Proof.
  unfold received at 1. unfold afterRequests. cbn [fold_left].
  change (fold_left _ rest ?f) with (afterRequests rest f).
  now rewrite afterRequests_received.
Qed.

Lemma headersOf_patched d url options :
  headersOf (patchedFetch d (fun _ o => o) url options) =
    if includes TARGET_HOST url && truthy_str d
    then withDashboardHeaders (default "" d) (headersOf options)
    else headersOf options.
Proof.
  unfold patchedFetch, headersOf.
  destruct options as [[[h|] m b]|]; cbn;
    destruct (includes TARGET_HOST url && truthy_str d); reflexivity.
Qed.

(** X13: after any number of installation requests, a call of
    [global.fetch] for a URL of the target host reaches the process's
    original [fetch] with the [Origin] and [Referer] of the earliest
    request's [dashboardUrl]: later requests' values are overwritten on the
    way down the chain of wrappers. *)
Theorem first_dashboardUrl_wins {A} (d1 : string) (rest : list (option string))
    (native : string -> option FetchOptions -> A) (url : string)
    (options : option FetchOptions) :
  includes TARGET_HOST url = true ->
  d1 <> "" ->
  afterRequests (Some d1 :: rest) native url options
    = native url (received (Some d1 :: rest) url options)
  /\ headersOf (received (Some d1 :: rest) url options) !! "Origin"
     = Some ("https://" +:+ d1)
  /\ headersOf (received (Some d1 :: rest) url options) !! "Referer"
     = Some ("https://" +:+ d1).
Proof.
  intros Hurl Hd. split; [apply afterRequests_received|].
  rewrite received_cons, headersOf_patched, Hurl. cbn.
  destruct (String.eqb_spec d1 ""); [contradiction|]. cbn.
  unfold withDashboardHeaders. split.
  - rewrite lookup_insert_ne by discriminate. apply lookup_insert_eq.
  - apply lookup_insert_eq.
Qed.

(** X14: a call for a URL that does not contain the target host reaches the
    original [fetch] with the headers it was given (an absent [headers]
    object becomes the empty one), whatever requests were installed. *)
Theorem other_hosts_keep_headers (requests : list (option string))
    (url : string) (options : option FetchOptions) :
  includes TARGET_HOST url = false ->
  headersOf (received requests url options) = headersOf options.
Proof.
  intros Hurl. induction requests as [|d rest IH]; [reflexivity|].
  now rewrite received_cons, headersOf_patched, Hurl.
Qed.

Section Verified.
Context {World : Type} (C : Collaborators World).

(** X16: the installation is accepted exactly when the tenant API answered
    with a non-empty version that the compatibility validator accepts for
    the range [>=3.11.7 <4]. *)
Theorem onRequestVerified_accepts_iff (dashboardUrl : option string)
    (token saleorApiUrl : string) (w : World) :
  fst (onRequestVerified C dashboardUrl token saleorApiUrl w) = Accepted
  <->
  exists v,
    fst (fetchSaleorVersion C saleorApiUrl token dashboardUrl w) = Return (Some v)
    /\ v <> ""
    /\ isValid C ">=3.11.7 <4" v = true.
Proof.
  unfold onRequestVerified.
  destruct (fetchSaleorVersion C saleorApiUrl token dashboardUrl w)
    as [[[v|]|e] w']; cbn.
  - destruct (String.eqb_spec v "") as [->|Hne]; cbn.
    + split; [discriminate | intros (v & [= <-] & Hv & _); contradiction].
    + change SaleorApp.REQUIRED_SALEOR_VERSION with ">=3.11.7 <4".
      destruct (isValid C ">=3.11.7 <4" v) eqn:Hvalid; cbn.
      * split; [intros _; now exists v | reflexivity].
      * split; [discriminate | intros (v' & [= <-] & _ & Hv); congruence].
  - split; [discriminate | intros (v & [=] & _)].
  - split; [discriminate | intros (v & [=] & _)].
Qed.

(** X17: every rejection carries status 400 and one of three messages; when
    the version request throws, the response is the fixed "Couldn't
    communicate" one, whatever the error was. *)
Theorem onRequestVerified_rejections (dashboardUrl : option string)
    (token saleorApiUrl : string) (w : World) (response : ErrorResponse) :
  fst (onRequestVerified C dashboardUrl token saleorApiUrl w) = Rejected response ->
  er_status response = 400
  /\ (response = cannotCommunicate
      \/ response = noVersion
      \/ exists v, response = incompatible v)
  /\ (forall e,
         fst (fetchSaleorVersion C saleorApiUrl token dashboardUrl w) = Throw e ->
         response = cannotCommunicate).
Proof.
  unfold onRequestVerified.
  destruct (fetchSaleorVersion C saleorApiUrl token dashboardUrl w)
    as [[[v|]|e] w']; cbn.
  - destruct (negb (String.eqb v "")); cbn.
    + destruct (isValid C _ v); cbn; [discriminate|].
      intros [= <-]. repeat split; [eauto | discriminate].
    + intros [= <-]. repeat split; [eauto | discriminate].
  - intros [= <-]. repeat split; [eauto | discriminate].
  - intros [= <-]. repeat split; eauto.
Qed.

End Verified.

(** X13, witness: two installations, the later one for another dashboard. *)
Lemma first_dashboardUrl_wins_witness :
  headersOf (received [Some "first.example"; Some "second.example"]
               "https://api-commerce.comercia.me/graphql/" None) !! "Origin"
  = Some "https://first.example".
Proof.
  exact (proj1 (proj2 (first_dashboardUrl_wins "first.example"
                         [Some "second.example"] (fun _ o => o)
                         "https://api-commerce.comercia.me/graphql/" None
                         eq_refl ltac:(discriminate)))).
Defined.

(** X14, witness. *)
Lemma other_hosts_keep_headers_witness :
  headersOf (received [Some "first.example"] "https://other.example/" None) = ∅.
Proof.
  exact (other_hosts_keep_headers [Some "first.example"]
           "https://other.example/" None eq_refl).
Defined.

(** X16, witness: a tenant on version 3.20.1. *)
Lemma onRequestVerified_accepts_iff_witness :
  fst (onRequestVerified Demo2.collaborators (Some "dashboard.example")
         "app-token" "https://tenant.example/graphql/" (Some "3.20.1"))
  = Accepted.
Proof.
  apply (proj2 (onRequestVerified_accepts_iff Demo2.collaborators
                  (Some "dashboard.example") "app-token"
                  "https://tenant.example/graphql/" (Some "3.20.1"))).
  exists "3.20.1". repeat split. discriminate.
Defined.

(** X17, witness: an unreachable tenant API. *)
Lemma onRequestVerified_rejections_witness :
  er_status cannotCommunicate = 400.
Proof.
  exact (proj1 (onRequestVerified_rejections Demo2.collaborators
                  (Some "dashboard.example") "app-token"
                  "https://tenant.example/graphql/" None cannotCommunicate
                  eq_refl)).
Defined.

End RegisterFacts.

(** * The choice of the auth-data store *)

Module SaleorAppFacts.
Import SaleorApp.

Lemma truthy_str_Some (v : option string) :
  truthy_str v = true <-> exists s, v = Some s /\ s <> "".
Proof.
  destruct v as [s|]; cbn.
  - destruct (String.eqb_spec s ""); cbn.
    + split; [discriminate | intros (s' & [= <-] & Hs); contradiction].
    + split; [intros _; now exists s | reflexivity].
  - split; [discriminate | intros (s & [=] & _)].
Qed.

(** X18: the module constructs the Saleor Cloud store only when [APL] is
    [saleor-cloud], and then with exactly the endpoint and the token of the
    environment, both non-empty. *)
Theorem selectApl_cloud_is_configured (env : gmap string string)
    (resourceUrl token : string) :
  selectApl env = inr (SaleorCloudAPL resourceUrl token) ->
  env !! "APL" = Some "saleor-cloud"
  /\ env !! "REST_APL_ENDPOINT" = Some resourceUrl /\ resourceUrl <> ""
  /\ env !! "REST_APL_TOKEN" = Some token /\ token <> "".
Proof.
  unfold selectApl.
  destruct (env !! "APL") as [a|] eqn:Ha; cbn; [|discriminate].
  destruct (String.eqb_spec a "upstash"); [discriminate|].
  destruct (String.eqb_spec a "file"); [discriminate|].
  destruct (String.eqb_spec a "saleor-cloud") as [->|]; [|discriminate].
  destruct (truthy_str (env !! "REST_APL_ENDPOINT")) eqn:Hu; cbn; [|discriminate].
  destruct (truthy_str (env !! "REST_APL_TOKEN")) eqn:Ht; cbn; [|discriminate].
  apply truthy_str_Some in Hu as (u & Hu & Hune).
  apply truthy_str_Some in Ht as (t & Ht & Htne).
  rewrite Hu, Ht. cbn. intros [= <- <-]. repeat split; assumption.
Qed.

(** X19: loading the module throws exactly when [APL] is set to a value
    other than [upstash] and [file] (the empty string included: only an
    absent variable defaults to [file]) and, if that value is
    [saleor-cloud], the endpoint or the token is absent or empty. *)
Theorem selectApl_throws_iff (env : gmap string string) :
  (exists e, selectApl env = inl e)
  <->
  exists a,
    env !! "APL" = Some a
    /\ a <> "upstash" /\ a <> "file"
    /\ (a = "saleor-cloud" ->
        truthy_str (env !! "REST_APL_ENDPOINT") = false
        \/ truthy_str (env !! "REST_APL_TOKEN") = false).
Proof.
  unfold selectApl.
  destruct (env !! "APL") as [a|] eqn:Ha; cbn.
  - destruct (String.eqb_spec a "upstash") as [->|Hup].
    { split; [intros (e & [=]) | intros (a & [= <-] & H & _); contradiction]. }
    destruct (String.eqb_spec a "file") as [->|Hfile].
    { split; [intros (e & [=]) | intros (a & [= <-] & _ & H & _); contradiction]. }
    destruct (String.eqb_spec a "saleor-cloud") as [->|Hcloud].
    + destruct (truthy_str (env !! "REST_APL_ENDPOINT")) eqn:Hu;
        destruct (truthy_str (env !! "REST_APL_TOKEN")) eqn:Ht; cbn.
      * split; [intros (e & [=])|].
        intros (a & [= <-] & _ & _ & H). destruct (H eq_refl); discriminate.
      * split; [|eauto]. intros _. exists "saleor-cloud". repeat split; auto.
      * split; [|eauto]. intros _. exists "saleor-cloud". repeat split; auto.
      * split; [|eauto]. intros _. exists "saleor-cloud". repeat split; auto.
    + split; [|eauto]. intros _. exists a. repeat split; auto.
      intros ->. contradiction.
  - split; [intros (e & [=]) | intros (a & [=] & _)].
Qed.

(** X20: the choice reads the three variables [APL], [REST_APL_ENDPOINT]
    and [REST_APL_TOKEN] only: setting any other variable changes
    nothing. *)
Theorem selectApl_reads_three_variables (env : gmap string string)
    (k v : string) :
  k <> "APL" -> k <> "REST_APL_ENDPOINT" -> k <> "REST_APL_TOKEN" ->
  selectApl (<[k := v]> env) = selectApl env.
Proof.
  intros H1 H2 H3. unfold selectApl.
  now rewrite !lookup_insert_ne by assumption.
Qed.

(** X18, witness. *)
Lemma selectApl_cloud_is_configured_witness :
  Demo2.cloudEnv !! "REST_APL_ENDPOINT" = Some "https://apl.example/api"
  /\ Demo2.cloudEnv !! "REST_APL_TOKEN" = Some "secret".
Proof.
  destruct (selectApl_cloud_is_configured Demo2.cloudEnv
              "https://apl.example/api" "secret" eq_refl)
    as (_ & Hu & _ & Ht & _).
  split; assumption.
Defined.

(** X19, witness: [APL] set to the empty string. *)
Lemma selectApl_throws_iff_witness :
  exists e, selectApl {[ "APL" := "" ]} = inl e.
Proof.
  apply (proj2 (selectApl_throws_iff {[ "APL" := "" ]})).
  exists "". repeat split; try discriminate.
Defined.

(** X20, witness. *)
Lemma selectApl_reads_three_variables_witness :
  selectApl (<["NODE_ENV" := "production"]> Demo2.cloudEnv)
  = inr (SaleorCloudAPL "https://apl.example/api" "secret").
Proof.
  rewrite (selectApl_reads_three_variables Demo2.cloudEnv "NODE_ENV"
             "production" ltac:(discriminate) ltac:(discriminate)
             ltac:(discriminate)).
  reflexivity.
Defined.

End SaleorAppFacts.

(** * The allowed-URL validator with an invalid pattern *)

(** X21: when [ALLOWED_DOMAIN_PATTERN] is a non-empty string that is not a
    regular expression, the validator throws a [SyntaxError] for every URL
    instead of answering. *)
Theorem allowedSaleorUrls_throws_on_invalid_pattern {World} (E : Env World)
    (p : string) :
  p <> "" ->
  (forall url, RegExp_test E p url = None) ->
  forall url, exists msg,
    allowedSaleorUrls E (Some p) url = Throw (SyntaxError msg).
Proof.
  intros Hne Hbad url. unfold allowedSaleorUrls. cbn.
  destruct (String.eqb_spec p ""); [contradiction|]. cbn.
  rewrite Hbad. now eexists.
Qed.

(** X21, witness: the pattern ["("]. *)
Lemma allowedSaleorUrls_throws_on_invalid_pattern_witness :
  exists msg,
    allowedSaleorUrls Demo2.strictEnv (Some "(") "https://tenant.example/graphql/"
    = Throw (SyntaxError msg).
Proof.
  exact (allowedSaleorUrls_throws_on_invalid_pattern Demo2.strictEnv "("
           ltac:(discriminate) (fun _ => eq_refl)
           "https://tenant.example/graphql/").
Defined.
